(** * Activity tracker (script.js): session state, timer and distance

    A shallow embedding of the closure of [script.js]: the application
    state variables, the geolocation callback, the haversine distance, the
    timer and the three button handlers, followed by the properties of the
    activity session that the specification states.

    Numbers.  JavaScript has one number type, the IEEE-754 double.
    - Instants and durations ([Date.now()], [startTime], [pausedTime],
      [totalPausedDuration]) are whole numbers of milliseconds; they are
      modelled by [Z], which is exact for every instant a clock can return.
    - Coordinates and the distance are fractional, and [Math.sin],
      [Math.cos] and [Math.atan2] are left implementation-approximated by
      the language.  The arithmetic on them is therefore an interface,
      [NumOps]; the code is written once over that interface.  The
      doubles, with the three [Math] functions as a parameter, are an
      instance ([Doubles.DoubleNum]) and so are the real numbers
      ([RealNum]); the sign laws that symmetry needs are a named class
      ([SignLaws]) and are assumed explicitly. *)

From Stdlib Require Import ZArith List String Bool Lia.
From Stdlib Require Import DecimalString.
From Stdlib Require Import Reals Lra.
From Stdlib Require PrimFloat Uint63.
Import ListNotations.

Local Open Scope string_scope.
Local Open Scope list_scope.
Local Open Scope Z_scope.

(** ** The number interface *)

Class NumOps : Type := {
  Num : Type;
  add : Num -> Num -> Num;            (* x + y *)
  sub : Num -> Num -> Num;            (* x - y *)
  mul : Num -> Num -> Num;            (* x * y *)
  div : Num -> Num -> Num;            (* x / y *)
  neg : Num -> Num;                   (* -x *)
  ltb : Num -> Num -> bool;           (* x < y *)
  lit : Z -> Num;                     (* an integer literal *)
  Math_PI : Num;
  Math_sin : Num -> Num;
  Math_cos : Num -> Num;
  Math_sqrt : Num -> Num;
  Math_atan2 : Num -> Num -> Num
}.

Declare Scope num_scope.
Delimit Scope num_scope with num.
Infix "+" := add : num_scope.
Infix "-" := sub : num_scope.
Infix "*" := mul : num_scope.
Infix "/" := div : num_scope.

(** Laws about signs: multiplication commutes, and negating an operand of
    [-], [*], [/] or the argument of [Math.sin] negates the result.  IEEE-754
    arithmetic rounds symmetrically and has them (a difference [x - x] is
    the one place where swapping the operands does not flip the sign, hence
    the first alternative of [sub_swap]). *)
Class SignLaws (N : NumOps) : Prop := {
  mul_comm : forall x y : Num, mul x y = mul y x;
  neg_neg : forall x : Num, neg (neg x) = x;
  sub_swap : forall x y : Num, x = y \/ sub y x = neg (sub x y);
  mul_neg_l : forall x y : Num, mul (neg x) y = neg (mul x y);
  div_neg_l : forall x y : Num, div (neg x) y = neg (div x y);
  sin_neg : forall x : Num, Math_sin (neg x) = neg (Math_sin x)
}.

(** ** Distance calculation *)

Section Distance.
Context {N : NumOps}.
Local Open Scope num_scope.

(** [calculateDistance(lat1, lon1, lat2, lon2)], the haversine formula. *)
Definition calculateDistance (lat1 lon1 lat2 lon2 : Num) : Num :=
  let R := lit 6371 in
  let dLat := (lat2 - lat1) * Math_PI / lit 180 in
  let dLon := (lon2 - lon1) * Math_PI / lit 180 in
  let a :=
    Math_sin (dLat / lit 2) * Math_sin (dLat / lit 2) +
    Math_cos (lat1 * Math_PI / lit 180) * Math_cos (lat2 * Math_PI / lit 180) *
    Math_sin (dLon / lit 2) * Math_sin (dLon / lit 2) in
  let c := lit 2 * Math_atan2 (Math_sqrt a) (Math_sqrt (lit 1 - a)) in
  R * c.

(** The half angle of a difference in degrees: [dLat / 2] and [dLon / 2]. *)
Definition halfAngle (from to : Num) : Num :=
  (to - from) * Math_PI / lit 180 / lit 2.

(** A coordinate is the array [[latitude, longitude]]. *)
Definition Coord : Type := Num * Num.

(** A valid coordinate: latitude in [-90, 90], longitude in [-180, 180]. *)
Definition validCoordinate (latitude longitude : Num) : bool :=
  negb (ltb latitude (lit (-90))) && negb (ltb (lit 90) latitude) &&
  negb (ltb longitude (lit (-180))) && negb (ltb (lit 180) longitude).

End Distance.

(** ** Duration text *)

(** [String(n)] for an integer-valued number. *)
Definition String_of (n : Z) : string := NilZero.string_of_int (Z.to_int n).

Fixpoint repeat_string (pad : string) (n : nat) : string :=
  match n with
  | O => ""
  | S n' => (pad ++ repeat_string pad n')%string
  end.

(** [s.padStart(2, '0')]. *)
Definition padStart2 (s : string) : string :=
  (repeat_string "0" (2 - String.length s) ++ s)%string.

(** The three fields the timer shows for [elapsedMilliseconds].  [%] is the
    remainder that takes the sign of the dividend ([Z.rem]) and
    [Math.floor] of a quotient by a positive number is [Z.div]. *)
Definition seconds_of (elapsedMilliseconds : Z) : Z :=
  Z.rem elapsedMilliseconds (1000 * 60) / 1000.
Definition minutes_of (elapsedMilliseconds : Z) : Z :=
  Z.rem elapsedMilliseconds (1000 * 60 * 60) / (1000 * 60).
Definition hours_of (elapsedMilliseconds : Z) : Z :=
  elapsedMilliseconds / (1000 * 60 * 60).

Definition formatDuration (elapsedMilliseconds : Z) : string :=
  (padStart2 (String_of (hours_of elapsedMilliseconds)) ++ ":" ++
   padStart2 (String_of (minutes_of elapsedMilliseconds)) ++ ":" ++
   padStart2 (String_of (seconds_of elapsedMilliseconds)))%string.

(** ** Application state *)

Section Session.
Context {N : NumOps}.

(** What a display element shows: a literal string,
    [new Date(t).toLocaleTimeString()] or [d.toFixed(2)]. *)
Inductive Text : Type :=
| Str (s : string)
| LocaleTimeString (t : Z)
| ToFixed2 (d : Num).

(** The state variables of the closure, under their own names, and the
    parts of the page the script writes: the text of the three display
    elements and the [disabled] flag and label of the buttons.  [map] is
    created by [initialize] and never cleared, so it is not a variable
    here; the Leaflet view itself (centre, zoom, tiles) is not modelled.
    [polyline] holds the points last handed to Leaflet. *)
Record State : Type := {
  watchId : option Z;
  startTime : option Z;
  timerInterval : option Z;
  pausedTime : Z;
  totalPausedDuration : Z;
  distance : Num;
  coordinates : list Coord;
  isPaused : bool;
  polyline : option (list Coord);
  startTimeText : Text;
  durationText : Text;
  distanceText : Text;
  startBtnDisabled : bool;
  pauseBtnDisabled : bool;
  pauseBtnText : string;
  resetBtnDisabled : bool
}.

(** Assignment to one variable. *)
Definition set_watchId (v : option Z) (s : State) : State :=
  {| watchId := v; startTime := startTime s; timerInterval := timerInterval s;
     pausedTime := pausedTime s; totalPausedDuration := totalPausedDuration s;
     distance := distance s; coordinates := coordinates s;
     isPaused := isPaused s; polyline := polyline s;
     startTimeText := startTimeText s; durationText := durationText s;
     distanceText := distanceText s; startBtnDisabled := startBtnDisabled s;
     pauseBtnDisabled := pauseBtnDisabled s; pauseBtnText := pauseBtnText s;
     resetBtnDisabled := resetBtnDisabled s |}.
Definition set_startTime (v : option Z) (s : State) : State :=
  {| watchId := watchId s; startTime := v; timerInterval := timerInterval s;
     pausedTime := pausedTime s; totalPausedDuration := totalPausedDuration s;
     distance := distance s; coordinates := coordinates s;
     isPaused := isPaused s; polyline := polyline s;
     startTimeText := startTimeText s; durationText := durationText s;
     distanceText := distanceText s; startBtnDisabled := startBtnDisabled s;
     pauseBtnDisabled := pauseBtnDisabled s; pauseBtnText := pauseBtnText s;
     resetBtnDisabled := resetBtnDisabled s |}.
Definition set_timerInterval (v : option Z) (s : State) : State :=
  {| watchId := watchId s; startTime := startTime s; timerInterval := v;
     pausedTime := pausedTime s; totalPausedDuration := totalPausedDuration s;
     distance := distance s; coordinates := coordinates s;
     isPaused := isPaused s; polyline := polyline s;
     startTimeText := startTimeText s; durationText := durationText s;
     distanceText := distanceText s; startBtnDisabled := startBtnDisabled s;
     pauseBtnDisabled := pauseBtnDisabled s; pauseBtnText := pauseBtnText s;
     resetBtnDisabled := resetBtnDisabled s |}.
Definition set_pausedTime (v : Z) (s : State) : State :=
  {| watchId := watchId s; startTime := startTime s;
     timerInterval := timerInterval s; pausedTime := v;
     totalPausedDuration := totalPausedDuration s; distance := distance s;
     coordinates := coordinates s; isPaused := isPaused s;
     polyline := polyline s; startTimeText := startTimeText s;
     durationText := durationText s; distanceText := distanceText s;
     startBtnDisabled := startBtnDisabled s;
     pauseBtnDisabled := pauseBtnDisabled s; pauseBtnText := pauseBtnText s;
     resetBtnDisabled := resetBtnDisabled s |}.
Definition set_totalPausedDuration (v : Z) (s : State) : State :=
  {| watchId := watchId s; startTime := startTime s;
     timerInterval := timerInterval s; pausedTime := pausedTime s;
     totalPausedDuration := v; distance := distance s;
     coordinates := coordinates s; isPaused := isPaused s;
     polyline := polyline s; startTimeText := startTimeText s;
     durationText := durationText s; distanceText := distanceText s;
     startBtnDisabled := startBtnDisabled s;
     pauseBtnDisabled := pauseBtnDisabled s; pauseBtnText := pauseBtnText s;
     resetBtnDisabled := resetBtnDisabled s |}.
Definition set_distance (v : Num) (s : State) : State :=
  {| watchId := watchId s; startTime := startTime s;
     timerInterval := timerInterval s; pausedTime := pausedTime s;
     totalPausedDuration := totalPausedDuration s; distance := v;
     coordinates := coordinates s; isPaused := isPaused s;
     polyline := polyline s; startTimeText := startTimeText s;
     durationText := durationText s; distanceText := distanceText s;
     startBtnDisabled := startBtnDisabled s;
     pauseBtnDisabled := pauseBtnDisabled s; pauseBtnText := pauseBtnText s;
     resetBtnDisabled := resetBtnDisabled s |}.
Definition set_coordinates (v : list Coord) (s : State) : State :=
  {| watchId := watchId s; startTime := startTime s;
     timerInterval := timerInterval s; pausedTime := pausedTime s;
     totalPausedDuration := totalPausedDuration s; distance := distance s;
     coordinates := v; isPaused := isPaused s; polyline := polyline s;
     startTimeText := startTimeText s; durationText := durationText s;
     distanceText := distanceText s; startBtnDisabled := startBtnDisabled s;
     pauseBtnDisabled := pauseBtnDisabled s; pauseBtnText := pauseBtnText s;
     resetBtnDisabled := resetBtnDisabled s |}.
Definition set_isPaused (v : bool) (s : State) : State :=
  {| watchId := watchId s; startTime := startTime s;
     timerInterval := timerInterval s; pausedTime := pausedTime s;
     totalPausedDuration := totalPausedDuration s; distance := distance s;
     coordinates := coordinates s; isPaused := v; polyline := polyline s;
     startTimeText := startTimeText s; durationText := durationText s;
     distanceText := distanceText s; startBtnDisabled := startBtnDisabled s;
     pauseBtnDisabled := pauseBtnDisabled s; pauseBtnText := pauseBtnText s;
     resetBtnDisabled := resetBtnDisabled s |}.
Definition set_polyline (v : option (list Coord)) (s : State) : State :=
  {| watchId := watchId s; startTime := startTime s;
     timerInterval := timerInterval s; pausedTime := pausedTime s;
     totalPausedDuration := totalPausedDuration s; distance := distance s;
     coordinates := coordinates s; isPaused := isPaused s; polyline := v;
     startTimeText := startTimeText s; durationText := durationText s;
     distanceText := distanceText s; startBtnDisabled := startBtnDisabled s;
     pauseBtnDisabled := pauseBtnDisabled s; pauseBtnText := pauseBtnText s;
     resetBtnDisabled := resetBtnDisabled s |}.
Definition set_startTimeText (v : Text) (s : State) : State :=
  {| watchId := watchId s; startTime := startTime s;
     timerInterval := timerInterval s; pausedTime := pausedTime s;
     totalPausedDuration := totalPausedDuration s; distance := distance s;
     coordinates := coordinates s; isPaused := isPaused s;
     polyline := polyline s; startTimeText := v; durationText := durationText s;
     distanceText := distanceText s; startBtnDisabled := startBtnDisabled s;
     pauseBtnDisabled := pauseBtnDisabled s; pauseBtnText := pauseBtnText s;
     resetBtnDisabled := resetBtnDisabled s |}.
Definition set_durationText (v : Text) (s : State) : State :=
  {| watchId := watchId s; startTime := startTime s;
     timerInterval := timerInterval s; pausedTime := pausedTime s;
     totalPausedDuration := totalPausedDuration s; distance := distance s;
     coordinates := coordinates s; isPaused := isPaused s;
     polyline := polyline s; startTimeText := startTimeText s; durationText := v;
     distanceText := distanceText s; startBtnDisabled := startBtnDisabled s;
     pauseBtnDisabled := pauseBtnDisabled s; pauseBtnText := pauseBtnText s;
     resetBtnDisabled := resetBtnDisabled s |}.
Definition set_distanceText (v : Text) (s : State) : State :=
  {| watchId := watchId s; startTime := startTime s;
     timerInterval := timerInterval s; pausedTime := pausedTime s;
     totalPausedDuration := totalPausedDuration s; distance := distance s;
     coordinates := coordinates s; isPaused := isPaused s;
     polyline := polyline s; startTimeText := startTimeText s;
     durationText := durationText s; distanceText := v;
     startBtnDisabled := startBtnDisabled s;
     pauseBtnDisabled := pauseBtnDisabled s; pauseBtnText := pauseBtnText s;
     resetBtnDisabled := resetBtnDisabled s |}.
Definition set_startBtnDisabled (v : bool) (s : State) : State :=
  {| watchId := watchId s; startTime := startTime s;
     timerInterval := timerInterval s; pausedTime := pausedTime s;
     totalPausedDuration := totalPausedDuration s; distance := distance s;
     coordinates := coordinates s; isPaused := isPaused s;
     polyline := polyline s; startTimeText := startTimeText s;
     durationText := durationText s; distanceText := distanceText s;
     startBtnDisabled := v; pauseBtnDisabled := pauseBtnDisabled s;
     pauseBtnText := pauseBtnText s; resetBtnDisabled := resetBtnDisabled s |}.
Definition set_pauseBtnDisabled (v : bool) (s : State) : State :=
  {| watchId := watchId s; startTime := startTime s;
     timerInterval := timerInterval s; pausedTime := pausedTime s;
     totalPausedDuration := totalPausedDuration s; distance := distance s;
     coordinates := coordinates s; isPaused := isPaused s;
     polyline := polyline s; startTimeText := startTimeText s;
     durationText := durationText s; distanceText := distanceText s;
     startBtnDisabled := startBtnDisabled s; pauseBtnDisabled := v;
     pauseBtnText := pauseBtnText s; resetBtnDisabled := resetBtnDisabled s |}.
Definition set_pauseBtnText (v : string) (s : State) : State :=
  {| watchId := watchId s; startTime := startTime s;
     timerInterval := timerInterval s; pausedTime := pausedTime s;
     totalPausedDuration := totalPausedDuration s; distance := distance s;
     coordinates := coordinates s; isPaused := isPaused s;
     polyline := polyline s; startTimeText := startTimeText s;
     durationText := durationText s; distanceText := distanceText s;
     startBtnDisabled := startBtnDisabled s;
     pauseBtnDisabled := pauseBtnDisabled s; pauseBtnText := v;
     resetBtnDisabled := resetBtnDisabled s |}.
Definition set_resetBtnDisabled (v : bool) (s : State) : State :=
  {| watchId := watchId s; startTime := startTime s;
     timerInterval := timerInterval s; pausedTime := pausedTime s;
     totalPausedDuration := totalPausedDuration s; distance := distance s;
     coordinates := coordinates s; isPaused := isPaused s;
     polyline := polyline s; startTimeText := startTimeText s;
     durationText := durationText s; distanceText := distanceText s;
     startBtnDisabled := startBtnDisabled s;
     pauseBtnDisabled := pauseBtnDisabled s; pauseBtnText := pauseBtnText s;
     resetBtnDisabled := v |}.

(** ** The browser around the script *)

(** What the browser supplies to a handler that runs: the value of
    [Date.now()], the geolocation service ([None] when
    [navigator.geolocation] is missing, otherwise the identifier that
    [watchPosition] returns) and the identifier that [setInterval]
    returns. *)
Record Env : Type := {
  now : Z;
  geolocation : option Z;
  intervalId : Z
}.

(** The messages a handler shows with [alert], in order.  [console.log]
    and [console.error] are not modelled. *)
Definition Alerts : Type := list string.

(** ** Geolocation and tracking *)

(** [onPositionUpdate(position)], with [position.coords.latitude] and
    [position.coords.longitude] as arguments.  Both branches on [polyline]
    leave it showing [coordinates]. *)
Definition onPositionUpdate (latitude longitude : Num) (s : State) : State :=
  let newCoord : Coord := (latitude, longitude) in
  let s := set_coordinates (coordinates s ++ [newCoord]) s in
  let s := set_polyline (Some (coordinates s)) s in
  if (1 <? List.length (coordinates s))%nat then
    let prevCoord :=
      nth (List.length (coordinates s) - 2) (coordinates s) newCoord in
    let s :=
      set_distance
        (add (distance s)
           (calculateDistance (fst prevCoord) (snd prevCoord)
              (fst newCoord) (snd newCoord))) s in
    set_distanceText (ToFixed2 (distance s)) s
  else s.

(** [onPositionError(error)], with [error.message] as argument. *)
Definition onPositionError (message : string) (s : State) : State * Alerts :=
  (s, [("Error getting location: " ++ message ++
        ". Please ensure location services are enabled.")%string]).

Definition startTracking (e : Env) (s : State) : State * Alerts :=
  match geolocation e with
  | Some id => (set_watchId (Some id) s, [])
  | None => (s, ["Geolocation is not supported by your browser."])
  end.

Definition stopTracking (s : State) : State :=
  match watchId s with
  | Some _ => set_watchId None s
  | None => s
  end.

(** ** Timer and duration *)

(** [startTimer()].  The interval that was running is cleared and its
    variable overwritten by the new one. *)
Definition startTimer (e : Env) (s : State) : State :=
  let s :=
    if isPaused s && (0 <? pausedTime s) then
      let s :=
        set_totalPausedDuration
          (totalPausedDuration s + (now e - pausedTime s)) s in
      set_pausedTime 0 s
    else s in
  set_timerInterval (Some (intervalId e)) s.

(** The callback that [startTimer] hands to [setInterval], run at the
    instant [now].  [startTime] is truthy when it is a number other
    than 0. *)
Definition timerTick (now : Z) (s : State) : State :=
  match startTime s with
  | Some t =>
      if negb (t =? 0) && negb (isPaused s) then
        let elapsedMilliseconds := now - t - totalPausedDuration s in
        set_durationText (Str (formatDuration elapsedMilliseconds)) s
      else s
  | None => s
  end.

Definition stopTimer (s : State) : State :=
  set_timerInterval None s.

(** ** Control button event handlers *)

Definition handleStart (e : Env) (s : State) : State * Alerts :=
  match watchId s with
  | Some _ => (s, ["Activity already started. Pause or Reset first."])
  | None =>
      let s := set_startTime (Some (now e)) s in
      let s := set_totalPausedDuration 0 s in
      let s := set_pausedTime 0 s in
      let s := set_isPaused false s in
      let s := set_startTimeText (LocaleTimeString (now e)) s in
      let s := set_durationText (Str "00:00:00") s in
      let s := set_distanceText (Str "0.00") s in
      let s := set_coordinates [] s in
      let s := set_distance (lit 0) s in
      let s := set_polyline None s in
      let (s, alerts) := startTracking e s in
      let s := startTimer e s in
      let s := set_startBtnDisabled true s in
      let s := set_pauseBtnDisabled false s in
      let s := set_pauseBtnText "Pause" s in
      let s := set_resetBtnDisabled false s in
      (s, alerts)
  end.

Definition handlePause (e : Env) (s : State) : State * Alerts :=
  let s := set_isPaused (negb (isPaused s)) s in
  if isPaused s then
    let s := stopTracking s in
    let s := set_pausedTime (now e) s in
    let s := set_pauseBtnText "Resume" s in
    (s, [])
  else
    let (s, alerts) := startTracking e s in
    let s := startTimer e s in
    let s := set_pauseBtnText "Pause" s in
    (s, alerts).

Definition handleReset (s : State) : State :=
  let s := stopTracking s in
  let s := stopTimer s in
  let s := set_startTime None s in
  let s := set_pausedTime 0 s in
  let s := set_totalPausedDuration 0 s in
  let s := set_distance (lit 0) s in
  let s := set_coordinates [] s in
  let s := set_isPaused false s in
  let s := set_polyline None s in
  let s := set_startTimeText (Str "-") s in
  let s := set_durationText (Str "-") s in
  let s := set_distanceText (Str "-") s in
  let s := set_startBtnDisabled false s in
  let s := set_pauseBtnDisabled true s in
  let s := set_pauseBtnText "Pause" s in
  set_resetBtnDisabled true s.

(** ** Initial setup *)

(** The page the script is loaded into is not part of the sources: what
    its elements show before the script writes them is a parameter. *)
Record Page : Type := {
  page_startTimeText : Text;
  page_durationText : Text;
  page_distanceText : Text;
  page_startBtnDisabled : bool;
  page_pauseBtnText : string
}.

(** The state once the declarations and [initialize()] have run. *)
Definition initialize (page : Page) : State :=
  {| watchId := None; startTime := None; timerInterval := None;
     pausedTime := 0; totalPausedDuration := 0; distance := lit 0;
     coordinates := []; isPaused := false; polyline := None;
     startTimeText := page_startTimeText page;
     durationText := page_durationText page;
     distanceText := page_distanceText page;
     startBtnDisabled := page_startBtnDisabled page;
     pauseBtnDisabled := true;
     pauseBtnText := page_pauseBtnText page;
     resetBtnDisabled := true |}.

(** ** Events *)

(** What can happen to the page: a click on one of the buttons, a position
    or an error from the geolocation watch, a tick of the interval. *)
Inductive Event : Type :=
| ClickStart (e : Env)
| ClickPause (e : Env)
| ClickReset
| PositionUpdate (latitude longitude : Num)
| PositionError (message : string)
| TimerTick (now : Z).

(** The browser runs a handler only where it is registered and live: a
    disabled button receives no click, a watch that was cleared (or never
    started) calls nothing back, and so does a cleared interval. *)
Definition dispatch (ev : Event) (s : State) : State * Alerts :=
  match ev with
  | ClickStart e => if startBtnDisabled s then (s, []) else handleStart e s
  | ClickPause e => if pauseBtnDisabled s then (s, []) else handlePause e s
  | ClickReset => if resetBtnDisabled s then (s, []) else (handleReset s, [])
  | PositionUpdate latitude longitude =>
      match watchId s with
      | Some _ => (onPositionUpdate latitude longitude s, [])
      | None => (s, [])
      end
  | PositionError message =>
      match watchId s with
      | Some _ => onPositionError message s
      | None => (s, [])
      end
  | TimerTick now =>
      match timerInterval s with
      | Some _ => (timerTick now s, [])
      | None => (s, [])
      end
  end.

Fixpoint run (evs : list Event) (s : State) : State :=
  match evs with
  | [] => s
  | ev :: evs' => run evs' (fst (dispatch ev s))
  end.

(** The states the page can be in. *)
Inductive reachable (page : Page) : State -> Prop :=
| reachable_init : reachable page (initialize page)
| reachable_step : forall s ev,
    reachable page s -> reachable page (fst (dispatch ev s)).

(** ** The session as the specification sees it *)

(** The script has no stop command: a session is idle until it is started,
    then tracking or paused until it is reset. *)
Inductive SessionState : Type := Idle | Tracking | Paused.

Definition sessionState (s : State) : SessionState :=
  if isPaused s then Paused
  else match startTime s with
       | None => Idle
       | Some _ => Tracking
       end.

(** The distances between consecutive coordinates, in arrival order, and
    their sum from 0. *)
Fixpoint legs (cs : list Coord) : list Num :=
  match cs with
  | p :: (q :: _) as rest =>
      calculateDistance (fst p) (snd p) (fst q) (snd q) :: legs rest
  | _ => []
  end.

Definition pathLength (cs : list Coord) : Num :=
  fold_left add (legs cs) (lit 0).

(** A sequence of positions handed to [onPositionUpdate] one after the
    other. *)
Definition ingest (cs : list Coord) (s : State) : State :=
  fold_left (fun st c => onPositionUpdate (fst c) (snd c) st) cs s.

(** How the script keeps position callbacks and pause clicks away from a
    session that is not tracking: while idle there is no watch, no pause
    and the Pause button is disabled; while paused there is no watch; once
    started the Pause button is enabled. *)
Definition gated (s : State) : Prop :=
  (startTime s = None ->
     watchId s = None /\ isPaused s = false /\ pauseBtnDisabled s = true) /\
  (isPaused s = true -> watchId s = None) /\
  (startTime s <> None -> pauseBtnDisabled s = false).

(** ** Scenarios *)

(** A browser with geolocation, at the instant [t]. *)
Definition env_at (t : Z) : Env :=
  {| now := t; geolocation := Some 1; intervalId := 1 |}.

(** A page that shows nothing yet and has its Start button enabled. *)
Definition blankPage : Page :=
  {| page_startTimeText := Str "-";
     page_durationText := Str "-";
     page_distanceText := Str "-";
     page_startBtnDisabled := false;
     page_pauseBtnText := "Pause" |}.

(** Started at 1000 ms with one position received. *)
Definition trackingSession : State :=
  run [ClickStart (env_at 1000); PositionUpdate (lit 0) (lit 0)]
      (initialize blankPage).

(** The same session, paused at 11000 ms. *)
Definition pausedSession : State :=
  run [ClickPause (env_at 11000)] trackingSession.

(** ** What the page shows *)

(** The page as [handleReset] leaves it. *)
Definition idleAfterReset : State :=
  {| watchId := None; startTime := None; timerInterval := None;
     pausedTime := 0; totalPausedDuration := 0; distance := lit 0;
     coordinates := []; isPaused := false; polyline := None;
     startTimeText := Str "-"; durationText := Str "-";
     distanceText := Str "-";
     startBtnDisabled := false; pauseBtnDisabled := true;
     pauseBtnText := "Pause"; resetBtnDisabled := true |}.

(** The line on the map for a path: none before the first position. *)
Definition drawn (cs : list Coord) : option (list Coord) :=
  match cs with
  | [] => None
  | _ :: _ => Some cs
  end.

(** The distance text of a started session: [handleStart] writes "0.00"
    and [onPositionUpdate] rewrites it from the second position on. *)
Definition shownDistance (s : State) : Text :=
  if (List.length (coordinates s) <? 2)%nat then Str "0.00"
  else ToFixed2 (distance s).

(** The controls and displays of a session started at the instant [t]. *)
Definition in_session (s : State) (t : Z) : Prop :=
  timerInterval s <> None /\
  startBtnDisabled s = true /\
  pauseBtnDisabled s = false /\
  resetBtnDisabled s = false /\
  pauseBtnText s = (if isPaused s then "Resume" else "Pause") /\
  startTimeText s = LocaleTimeString t /\
  distanceText s = shownDistance s.

Definition coherent (page : Page) (s : State) : Prop :=
  polyline s = drawn (coordinates s) /\
  match startTime s with
  | None => s = initialize page \/ s = idleAfterReset
  | Some t => in_session s t
  end.

(** An event of a browser that has no geolocation service. *)
Definition without_geolocation (ev : Event) : Prop :=
  match ev with
  | ClickStart e | ClickPause e => geolocation e = None
  | _ => True
  end.

End Session.

(** ** The real numbers as an instance of the interface *)

(** The angle of the point [(x, y)], in [(-PI, PI]]. *)
Definition Ratan2 (y x : R) : R :=
  if Rlt_dec 0 x then Ratan.atan (y / x)
  else if Rlt_dec x 0 then
    if Rle_dec 0 y then Ratan.atan (y / x) + Rtrigo1.PI
    else Ratan.atan (y / x) - Rtrigo1.PI
  else if Rlt_dec 0 y then Rtrigo1.PI / 2
  else if Rlt_dec y 0 then - Rtrigo1.PI / 2
  else 0.

Definition RealNum : NumOps :=
  {| Num := R;
     add := Rplus; sub := Rminus; mul := Rmult; div := Rdiv; neg := Ropp;
     ltb := fun x y => if Rlt_dec x y then true else false;
     lit := IZR;
     Math_PI := Rtrigo1.PI;
     Math_sin := Rtrigo_def.sin;
     Math_cos := Rtrigo_def.cos;
     Math_sqrt := R_sqrt.sqrt;
     Math_atan2 := Ratan2 |}.

(** ** The doubles as an instance of the interface *)

Module Doubles.
Import PrimFloat.

(** The double that an integer literal denotes. *)
Definition double_of_Z (n : Z) : float :=
  match n with
  | Z0 => 0%float
  | Zpos _ => of_uint63 (Uint63.of_Z n)
  | Zneg p => opp (of_uint63 (Uint63.of_Z (Zpos p)))
  end.

(** [Math.sin], [Math.cos] and [Math.atan2] of the engine that runs the
    script.  The language fixes them on special values only. *)
Record MathLibrary : Type := {
  lib_sin : float -> float;
  lib_cos : float -> float;
  lib_atan2 : float -> float -> float
}.

(** Double arithmetic: [+], [-], [*], [/] and [Math.sqrt] round to
    nearest, [Math.PI] is the double nearest to pi. *)
Definition DoubleNum (m : MathLibrary) : NumOps :=
  Build_NumOps float PrimFloat.add PrimFloat.sub PrimFloat.mul PrimFloat.div
    PrimFloat.opp PrimFloat.ltb double_of_Z
    0x1.921fb54442d18p+1%float
    (lib_sin m) (lib_cos m) PrimFloat.sqrt (lib_atan2 m).

(** What the library returns on the leg from (8, 0) to (-8, 180): the
    doubles nearest to the exact sine and cosine,
      sin(-0.13962634015954636) = -0.13917310096006544,
      sin(1.5707963267948966) = 1,
      cos(0.13962634015954636) = cos(-0.13962634015954636)
                               = 0.9902680687415704,
    and NaN for an angle whose second argument is NaN. *)
Definition nearest_on_antipodal_leg (m : MathLibrary) : Prop :=
  lib_sin m (-0x1.1df46a2529d39p-3)%float = (-0x1.1d06c968d9e19p-3)%float /\
  lib_sin m 0x1.921fb54442d18p+0%float = 1%float /\
  lib_cos m 0x1.1df46a2529d39p-3%float = 0x1.fb046a930947ap-1%float /\
  lib_cos m (-0x1.1df46a2529d39p-3)%float = 0x1.fb046a930947ap-1%float /\
  lib_atan2 m 1%float nan = nan.

(** A library of which only the values on that leg are fixed. *)
Definition legLibrary : MathLibrary :=
  {| lib_sin := fun x =>
       if (x =? -0x1.1df46a2529d39p-3)%float then (-0x1.1d06c968d9e19p-3)%float
       else if (x =? 0x1.921fb54442d18p+0)%float then 1%float
       else nan;
     lib_cos := fun x =>
       if (abs x =? 0x1.1df46a2529d39p-3)%float then 0x1.fb046a930947ap-1%float
       else nan;
     lib_atan2 := fun y x =>
       if is_nan y || is_nan x then nan else 0%float |}.

End Doubles.

(** * Properties *)

(** ** Duration text *)

Example formatDuration_20s : formatDuration 20000 = "00:00:20".
Proof. reflexivity. Qed.

Example formatDuration_long : formatDuration 360061000 = "100:01:01".
Proof. reflexivity. Qed.

(** ** The laws hold of the real numbers *)

Lemma Ratan2_quadrant (y x : R) :
  (0 <= y)%R -> (0 <= x)%R -> (0 <= Ratan2 y x)%R.
Proof.
  intros Hy Hx. unfold Ratan2.
  destruct (Rlt_dec 0 x) as [Hpos | Hnpos].
  - destruct (Req_dec y 0) as [-> | Hy0].
    + unfold Rdiv. rewrite Rmult_0_l, Ratan.atan_0. lra.
    + assert (0 < y / x)%R as Hq by (apply Rdiv_lt_0_compat; lra).
      apply Ratan.atan_increasing in Hq. rewrite Ratan.atan_0 in Hq. lra.
  - destruct (Rlt_dec x 0) as [Hneg | _]; [lra |].
    pose proof Rtrigo1.PI_RGT_0 as Hpi.
    destruct (Rlt_dec 0 y) as [_ | _]; [lra |].
    destruct (Rlt_dec y 0) as [Hyneg | _]; lra.
Qed.

Lemma RealNum_SignLaws : SignLaws RealNum.
Proof.
  constructor; simpl; intros.
  - apply Rmult_comm.
  - apply Ropp_involutive.
  - right. ring.
  - ring.
  - unfold Rdiv. ring.
  - apply Rtrigo1.sin_neg.
Qed.

(** ** Distance calculation *)

Section DistanceFacts.
Context {N : NumOps}.

Lemma mul_neg_r `{!SignLaws N} (x y : Num) : mul x (neg y) = neg (mul x y).
Proof. rewrite mul_comm, mul_neg_l, mul_comm. reflexivity. Qed.

Lemma mul_neg_neg `{!SignLaws N} (x y : Num) : mul (neg x) (neg y) = mul x y.
Proof. rewrite mul_neg_l, mul_neg_r, neg_neg. reflexivity. Qed.

(** Swapping the two ends leaves the squared sine of the half angle, and
    any product that contains the sine twice, as they are. *)
Lemma sin_halfAngle_swap `{!SignLaws N} (x y : Num) :
  x = y \/ Math_sin (halfAngle y x) = neg (Math_sin (halfAngle x y)).
Proof.
  destruct (sub_swap y x) as [Heq | Hswap]; [left; congruence | right].
  unfold halfAngle.
  rewrite Hswap, mul_neg_l, !div_neg_l, sin_neg. reflexivity.
Qed.

Lemma sin_square_swap `{!SignLaws N} (p x y : Num) :
  mul (Math_sin (halfAngle y x)) (Math_sin (halfAngle y x)) =
    mul (Math_sin (halfAngle x y)) (Math_sin (halfAngle x y)) /\
  mul (mul p (Math_sin (halfAngle y x))) (Math_sin (halfAngle y x)) =
    mul (mul p (Math_sin (halfAngle x y))) (Math_sin (halfAngle x y)).
Proof.
  destruct (sin_halfAngle_swap x y) as [-> | ->]; [split; reflexivity |].
  split.
  - apply mul_neg_neg.
  - rewrite (mul_neg_r p). apply mul_neg_neg.
Qed.

End DistanceFacts.

(** In exact arithmetic the haversine distance is a number that is at
    least 0, and it is 0 from a point to itself.  Neither fact is about
    doubles: there the sum [a] is rounded and, not being clamped, can
    exceed 1, where [Math.sqrt(1 - a)] is not a number. *)
Lemma calculateDistance_exact_arithmetic (lat1 lon1 lat2 lon2 : R) :
  (0 <= calculateDistance (N := RealNum) lat1 lon1 lat2 lon2)%R /\
  calculateDistance (N := RealNum) lat1 lon1 lat1 lon1 = 0%R.
Proof.
  split.
  - unfold calculateDistance. simpl.
    apply Rmult_le_pos; [lra |]. apply Rmult_le_pos; [lra |].
    apply Ratan2_quadrant; apply R_sqrt.sqrt_pos.
  - unfold calculateDistance. simpl.
    replace ((lat1 - lat1) * Rtrigo1.PI / 180 / 2)%R with 0%R
      by (unfold Rdiv; ring).
    replace ((lon1 - lon1) * Rtrigo1.PI / 180 / 2)%R with 0%R
      by (unfold Rdiv; ring).
    rewrite Rtrigo_def.sin_0, !Rmult_0_r, Rplus_0_r, Rminus_0_r.
    rewrite R_sqrt.sqrt_0, R_sqrt.sqrt_1.
    unfold Ratan2. destruct (Rlt_dec 0 1) as [_ | Hn]; [| lra].
    unfold Rdiv. rewrite Rmult_0_l, Ratan.atan_0. ring.
Qed.

(** C10.  The distance is symmetric in its two points:
    [calculateDistance(lat1, lon1, lat2, lon2)] equals
    [calculateDistance(lat2, lon2, lat1, lon1)], in every number system
    that has the sign laws. *)
Theorem calculateDistance_symmetric :
  forall (N : NumOps), SignLaws N ->
  forall lat1 lon1 lat2 lon2 : Num,
    calculateDistance lat1 lon1 lat2 lon2 =
    calculateDistance lat2 lon2 lat1 lon1.
Proof.
  intros N L lat1 lon1 lat2 lon2. unfold calculateDistance.
  fold (halfAngle lat1 lat2) (halfAngle lon1 lon2)
       (halfAngle lat2 lat1) (halfAngle lon2 lon1).
  set (p := mul (Math_cos (div (mul lat1 Math_PI) (lit 180)))
                (Math_cos (div (mul lat2 Math_PI) (lit 180)))).
  replace (mul (Math_cos (div (mul lat2 Math_PI) (lit 180)))
               (Math_cos (div (mul lat1 Math_PI) (lit 180)))) with p
    by apply mul_comm.
  destruct (sin_square_swap p lat1 lat2) as [Hlat _].
  destruct (sin_square_swap p lon1 lon2) as [_ Hlon].
  rewrite Hlat, Hlon. reflexivity.
Qed.

Lemma calculateDistance_symmetric_witness :
  SignLaws RealNum /\
  calculateDistance (N := RealNum) 0%R 0%R 0%R 1%R =
  calculateDistance (N := RealNum) 0%R 1%R 0%R 0%R.
Proof.
  split.
  - exact RealNum_SignLaws.
  - apply (calculateDistance_symmetric RealNum RealNum_SignLaws).
Defined.

(** ** The session *)

Ltac unfold_handlers :=
  unfold dispatch, handleStart, handlePause, handleReset, onPositionError,
    startTracking, stopTracking, startTimer, stopTimer, timerTick in *.

Ltac split_cases :=
  repeat match goal with
         | |- context [match ?x with _ => _ end] =>
             lazymatch x with
             | context [match _ with _ => _ end] => fail
             | _ => destruct x eqn:?; simpl in *
             end
         end.

Ltac by_cases s :=
  unfold_handlers; destruct s; simpl in *; subst; simpl in *; split_cases;
  simpl in *; try congruence; auto.

Section SessionFacts.
Context {N : NumOps}.

Lemma fold_left_add_snoc (l : list Num) (x z : Num) :
  fold_left add (l ++ [x]) z = add (fold_left add l z) x.
Proof. rewrite fold_left_app. reflexivity. Qed.

Lemma legs_snoc (cs : list Coord) (p c : Coord) :
  legs ((cs ++ [p]) ++ [c]) =
  legs (cs ++ [p]) ++ [calculateDistance (fst p) (snd p) (fst c) (snd c)].
Proof.
  induction cs as [| a cs IH]; [reflexivity |].
  change (legs (a :: (cs ++ [p]) ++ [c]) =
          legs (a :: cs ++ [p]) ++
          [calculateDistance (fst p) (snd p) (fst c) (snd c)]).
  destruct (cs ++ [p]) as [| q rest] eqn:Hq.
  - destruct cs; discriminate Hq.
  - simpl in IH |- *. rewrite IH. reflexivity.
Qed.

Lemma pathLength_snoc (cs : list Coord) (p c : Coord) :
  pathLength ((cs ++ [p]) ++ [c]) =
  add (pathLength (cs ++ [p]))
      (calculateDistance (fst p) (snd p) (fst c) (snd c)).
Proof. unfold pathLength. rewrite legs_snoc. apply fold_left_add_snoc. Qed.

Lemma pathLength_short (cs : list Coord) :
  (List.length cs < 2)%nat -> pathLength cs = lit 0.
Proof.
  destruct cs as [| a [| b cs]]; simpl; intros H; try reflexivity; lia.
Qed.

(** What [onPositionUpdate] does to the path and to the distance. *)
Lemma onPositionUpdate_coordinates (lat lon : Num) (s : State) :
  coordinates (onPositionUpdate lat lon s) = coordinates s ++ [(lat, lon)].
Proof.
  unfold onPositionUpdate. simpl.
  destruct (1 <? _)%nat; reflexivity.
Qed.

Lemma prevCoord_snoc (cs : list Coord) (p c d : Coord) :
  nth (List.length ((cs ++ [p]) ++ [c]) - 2) ((cs ++ [p]) ++ [c]) d = p.
Proof.
  rewrite <- app_assoc. simpl.
  replace (List.length (cs ++ [p; c]) - 2)%nat with (List.length cs)
    by (rewrite length_app; simpl; lia).
  apply nth_middle.
Qed.

Lemma onPositionUpdate_first (lat lon : Num) (s : State) :
  coordinates s = [] ->
  distance (onPositionUpdate lat lon s) = distance s.
Proof.
  intros Hcs. unfold onPositionUpdate. simpl. rewrite Hcs. reflexivity.
Qed.

Lemma onPositionUpdate_next (lat lon : Num) (s : State) cs p :
  coordinates s = cs ++ [p] ->
  distance (onPositionUpdate lat lon s) =
  add (distance s) (calculateDistance (fst p) (snd p) lat lon).
Proof.
  intros Hcs. unfold onPositionUpdate. simpl. rewrite Hcs.
  destruct (1 <? _)%nat eqn:Hlen.
  - simpl. rewrite prevCoord_snoc. reflexivity.
  - apply Nat.ltb_ge in Hlen. rewrite !length_app in Hlen. simpl in Hlen. lia.
Qed.

Lemma onPositionUpdate_distance (lat lon : Num) (s : State) :
  distance s = pathLength (coordinates s) ->
  distance (onPositionUpdate lat lon s) =
  pathLength (coordinates (onPositionUpdate lat lon s)).
Proof.
  intros Hinv. rewrite onPositionUpdate_coordinates.
  destruct (coordinates s) as [| a l] eqn:Hcs using rev_ind.
  - rewrite (onPositionUpdate_first _ _ _ Hcs). exact Hinv.
  - rewrite (onPositionUpdate_next _ _ _ _ _ Hcs), pathLength_snoc, Hinv.
    reflexivity.
Qed.

End SessionFacts.

Section Reachability.
Context {N : NumOps}.

Lemma dispatch_distance (ev : Event) (s : State) :
  distance s = pathLength (coordinates s) ->
  distance (fst (dispatch ev s)) = pathLength (coordinates (fst (dispatch ev s))).
Proof.
  intros Hinv. destruct ev as [e | e | | lat lon | msg | t].
  - by_cases s.
  - by_cases s.
  - by_cases s.
  - simpl. destruct (watchId s); simpl; [| exact Hinv].
    apply onPositionUpdate_distance, Hinv.
  - by_cases s.
  - by_cases s.
Qed.

Lemma ingest_distance (cs : list Coord) (s : State) :
  distance s = pathLength (coordinates s) ->
  coordinates (ingest cs s) = coordinates s ++ cs /\
  distance (ingest cs s) = pathLength (coordinates (ingest cs s)).
Proof.
  revert s. induction cs as [| c cs IH]; intros s Hinv.
  - simpl. rewrite app_nil_r. split; [reflexivity | exact Hinv].
  - destruct (IH (onPositionUpdate (fst c) (snd c) s)
                 (onPositionUpdate_distance _ _ _ Hinv)) as [Hcs Hd].
    split; [| exact Hd].
    change (ingest (c :: cs) s)
      with (ingest cs (onPositionUpdate (fst c) (snd c) s)).
    rewrite Hcs, onPositionUpdate_coordinates, <- app_assoc.
    destruct c; reflexivity.
Qed.

Lemma reachable_distance (page : Page) (s : State) :
  reachable page s -> distance s = pathLength (coordinates s).
Proof.
  induction 1 as [| s ev _ IH]; [reflexivity |].
  apply dispatch_distance, IH.
Qed.

Lemma onPositionUpdate_gated (lat lon : Num) (s : State) :
  gated s -> gated (onPositionUpdate lat lon s).
Proof.
  unfold gated, onPositionUpdate. simpl.
  destruct (1 <? _)%nat; simpl; trivial.
Qed.

Lemma dispatch_gated (ev : Event) (s : State) :
  gated s -> gated (fst (dispatch ev s)).
Proof.
  intros Hinv. destruct ev as [e | e | | lat lon | msg | t].
  - unfold gated in *. by_cases s; intuition congruence.
  - unfold gated in *. by_cases s; intuition congruence.
  - unfold gated in *. by_cases s; intuition congruence.
  - simpl. destruct (watchId s); simpl; [| exact Hinv].
    apply onPositionUpdate_gated, Hinv.
  - unfold gated in *. by_cases s; intuition congruence.
  - unfold gated in *. by_cases s; intuition congruence.
Qed.

Lemma reachable_gated (page : Page) (s : State) :
  reachable page s -> gated s.
Proof.
  induction 1 as [| s ev _ IH].
  - unfold gated. simpl. intuition congruence.
  - apply dispatch_gated, IH.
Qed.

(** The update of [totalPausedDuration] in [startTimer] never runs: both
    callers have cleared [isPaused] before they call it. *)
Lemma dispatch_totalPausedDuration (ev : Event) (s : State) :
  totalPausedDuration s = 0 ->
  totalPausedDuration (fst (dispatch ev s)) = 0.
Proof.
  intros Hinv. destruct ev as [e | e | | lat lon | msg | t].
  - by_cases s.
  - by_cases s.
  - by_cases s.
  - simpl. destruct (watchId s); simpl; [| exact Hinv].
    unfold onPositionUpdate. simpl. destruct (1 <? _)%nat; exact Hinv.
  - by_cases s.
  - by_cases s.
Qed.

Lemma reachable_totalPausedDuration (page : Page) (s : State) :
  reachable page s -> totalPausedDuration s = 0.
Proof.
  induction 1 as [| s ev _ IH]; [reflexivity |].
  apply dispatch_totalPausedDuration, IH.
Qed.

Lemma reachable_run (page : Page) (evs : list Event) (s : State) :
  reachable page s -> reachable page (run evs s).
Proof.
  revert s. induction evs as [| ev evs IH]; simpl; intros s Hs; [exact Hs |].
  apply IH. constructor. exact Hs.
Qed.

(** Outside tracking, the paused flag or the missing start time tell. *)
Lemma not_tracking (s : State) :
  sessionState s <> Tracking -> isPaused s = true \/ startTime s = None.
Proof.
  unfold sessionState. destruct (isPaused s); [left; reflexivity |].
  destruct (startTime s); [congruence | right; reflexivity].
Qed.

(** The interval callback does nothing while the session is paused. *)
Lemma timerTick_paused (now : Z) (s : State) :
  isPaused s = true -> timerTick now s = s.
Proof.
  intros Hp. unfold timerTick. rewrite Hp.
  destruct (startTime s) as [t |]; [| reflexivity].
  rewrite andb_false_r. reflexivity.
Qed.

(** Nor does it before a start or after a reset. *)
Lemma timerTick_idle (now : Z) (s : State) :
  startTime s = None ->
  timerTick now s = s /\ fst (dispatch (TimerTick now) s) = s.
Proof.
  intros Hi. unfold dispatch, timerTick. rewrite Hi.
  destruct (timerInterval s); split; reflexivity.
Qed.

End Reachability.

Section Scenarios.
Context {N : NumOps}.

Lemma trackingSession_reachable : reachable blankPage trackingSession.
Proof. apply reachable_run. constructor. Qed.

Lemma pausedSession_reachable : reachable blankPage pausedSession.
Proof. apply reachable_run, trackingSession_reachable. Qed.

Lemma trackingSession_fields :
  sessionState trackingSession = Tracking /\
  watchId trackingSession = Some 1 /\
  startTime trackingSession = Some 1000 /\
  coordinates trackingSession = [(lit 0, lit 0)].
Proof. repeat split; reflexivity. Qed.

Lemma pausedSession_fields :
  sessionState pausedSession = Paused /\
  watchId pausedSession = None /\
  startTime pausedSession = Some 1000 /\
  pausedTime pausedSession = 11000 /\
  coordinates pausedSession = [(lit 0, lit 0)].
Proof. repeat split; reflexivity. Qed.

Lemma snoc_differs {A : Type} (l : list A) (x : A) : l ++ [x] <> l.
Proof.
  intros H. apply (f_equal (@List.length A)) in H.
  rewrite length_app in H. simpl in H. lia.
Qed.

(** Resuming: [handlePause] has cleared [isPaused] before [startTimer]
    tests it, so the pause that ends is not added to
    [totalPausedDuration] and [pausedTime] keeps its value. *)
Lemma handlePause_resume (e : Env) (s : State) :
  isPaused s = true ->
  isPaused (fst (handlePause e s)) = false /\
  totalPausedDuration (fst (handlePause e s)) = totalPausedDuration s /\
  pausedTime (fst (handlePause e s)) = pausedTime s.
Proof. intros Hp. by_cases s. Qed.

End Scenarios.

(** C1.  Start at t0, pause at t1, resume at t2: the specification has the
    resume add t2 - t1 to [totalPausedDuration] and clear the pause instant,
    so that the duration shown afterwards leaves the pause out.  The script
    run on start at 1000 ms, pause at 11000 ms, resume at 16000 ms and a
    tick at 21000 ms: the session is tracking again, [totalPausedDuration]
    is still 0, [pausedTime] is still 11000 and the tick shows 20 s, the
    5 s of pause included, where 15 s are specified. *)
Theorem resume_keeps_paused_interval_in_duration :
  forall (N : NumOps),
  let resumed :=
    run [ClickStart (env_at 1000); ClickPause (env_at 11000);
         ClickPause (env_at 16000)] (initialize blankPage) in
  let shown := run [TimerTick 21000] resumed in
  sessionState resumed = Tracking /\
  startTime resumed = Some 1000 /\
  totalPausedDuration resumed = 0 /\
  pausedTime resumed = 11000 /\
  durationText shown = Str "00:00:20" /\
  formatDuration (21000 - 1000 - (16000 - 11000)) = "00:00:15".
Proof. intros N. repeat split; reflexivity. Qed.

(** X13.  After every sequence of position ingestions, from every state
    the page can reach: the coordinates are the ones there were followed by
    the ingested ones in arrival order; [distance] is the sum, from 0 and
    in that order, of what [calculateDistance] returned for each pair of
    consecutive coordinates, whatever it returned; and it is 0 when there
    are fewer than two coordinates. *)
Theorem distance_accumulates_consecutive_legs :
  forall (N : NumOps) (page : Page) (s : State) (cs : list Coord),
  reachable page s ->
  let s' := ingest cs s in
  coordinates s' = coordinates s ++ cs /\
  distance s' = pathLength (coordinates s') /\
  ((List.length (coordinates s') < 2)%nat -> distance s' = lit 0).
Proof.
  intros N page s cs Hs s'.
  destruct (ingest_distance cs s (reachable_distance page s Hs)) as [Hcs Hd].
  fold s' in Hcs, Hd.
  split; [exact Hcs |]. split; [exact Hd |].
  intros Hlen. rewrite Hd. apply pathLength_short, Hlen.
Qed.

Lemma distance_accumulates_consecutive_legs_witness :
  let s := trackingSession (N := RealNum) in
  let cs : list (Coord (N := RealNum)) := [(lit 0, lit 1); (lit 1, lit 1)] in
  let s' := ingest cs s in
  reachable blankPage s /\
  coordinates s' = coordinates s ++ cs /\
  distance s' = pathLength (coordinates s') /\
  ((List.length (coordinates s') < 2)%nat -> distance s' = lit 0).
Proof.
  intros s cs s'.
  split; [apply trackingSession_reachable |].
  exact (distance_accumulates_consecutive_legs RealNum blankPage s cs
           trackingSession_reachable).
Defined.

(** C3 as stated fails: [onPositionUpdate] has no guard on the session
    state.  Called on a paused session it appends the coordinate. *)
Lemma late_position_is_recorded :
  sessionState (pausedSession (N := RealNum)) = Paused /\
  coordinates (onPositionUpdate (lit 0) (lit 1) (pausedSession (N := RealNum)))
    = coordinates pausedSession ++ [(lit 0, lit 1)] /\
  onPositionUpdate (lit 0) (lit 1) (pausedSession (N := RealNum))
    <> pausedSession.
Proof.
  split; [apply pausedSession_fields |].
  split; [apply onPositionUpdate_coordinates |].
  intros H. apply (f_equal coordinates) in H.
  rewrite onPositionUpdate_coordinates in H.
  exact (snoc_differs _ _ H).
Qed.

(** C3, amended.  Positions are kept out by cancelling the watch, not by
    the callback: in every reachable state that is not tracking (idle or
    paused) [watchId] is null, so the position source calls nothing back,
    and a position event leaves the whole state, [distance] and
    [coordinates] included, unchanged and shows no alert. *)
Theorem position_ignored_outside_tracking :
  forall (N : NumOps) (page : Page) (s : State) (lat lon : Num),
  reachable page s ->
  sessionState s <> Tracking ->
  watchId s = None /\ dispatch (PositionUpdate lat lon) s = (s, []).
Proof.
  intros N page s lat lon Hs Hst.
  assert (watchId s = None) as Hw.
  { destruct (reachable_gated page s Hs) as (Hidle & Hpaused & _).
    destruct (not_tracking s Hst) as [Hp | Hi].
    - apply Hpaused, Hp.
    - apply Hidle, Hi. }
  split; [exact Hw |]. simpl. rewrite Hw. reflexivity.
Qed.

Lemma position_ignored_outside_tracking_witness :
  reachable blankPage (pausedSession (N := RealNum)) /\
  sessionState (pausedSession (N := RealNum)) <> Tracking /\
  watchId (pausedSession (N := RealNum)) = None /\
  dispatch (PositionUpdate (lit 0) (lit 1)) (pausedSession (N := RealNum))
    = (pausedSession, []).
Proof.
  assert (sessionState (pausedSession (N := RealNum)) <> Tracking) as Hst
    by (destruct (pausedSession_fields (N := RealNum)) as [-> _]; discriminate).
  split; [apply pausedSession_reachable |]. split; [exact Hst |].
  exact (position_ignored_outside_tracking RealNum blankPage pausedSession
           (lit 0) (lit 1) pausedSession_reachable Hst).
Defined.

(** The guard of [handleStart]: with a watch active it shows the alert
    and leaves every variable as it was. *)
Lemma handleStart_guard {N : NumOps} (e : Env) (s : State) :
  watchId s <> None ->
  handleStart e s = (s, ["Activity already started. Pause or Reset first."]).
Proof.
  intros Hw. unfold handleStart.
  destruct (watchId s); [reflexivity | congruence].
Qed.

(** C5 as stated fails: [handlePause] is a toggle without a guard and
    without a result.  Called on a freshly set up session it shows nothing,
    sets [isPaused] and records the pause instant. *)
Lemma pause_on_fresh_session_toggles :
  let s := initialize (N := RealNum) blankPage in
  let r := handlePause (env_at 5000) s in
  sessionState s = Idle /\
  snd r = [] /\
  isPaused (fst r) = true /\
  pausedTime (fst r) = 5000 /\
  sessionState (fst r) = Paused /\
  fst r <> s.
Proof.
  repeat split; try reflexivity.
  intros H. apply (f_equal isPaused) in H. discriminate H.
Qed.

(** C5, amended.  No NotTracking condition exists.  On an idle session
    (fresh or reset) the Pause button is disabled, so a pause click runs no
    handler: the state is unchanged and nothing is shown.  On a paused
    session the same click resumes tracking. *)
Theorem pause_click_outside_tracking :
  forall (N : NumOps) (page : Page) (s : State) (e : Env),
  reachable page s ->
  (sessionState s = Idle ->
     pauseBtnDisabled s = true /\ dispatch (ClickPause e) s = (s, [])) /\
  (sessionState s = Paused ->
     sessionState (fst (dispatch (ClickPause e) s)) = Tracking).
Proof.
  intros N page s e Hs.
  destruct (reachable_gated page s Hs) as (Hidle & _ & Hstarted).
  unfold sessionState. split.
  - intros Hst.
    assert (startTime s = None) as Hi
      by (destruct (isPaused s); [discriminate |];
          destruct (startTime s); [discriminate | reflexivity]).
    destruct (Hidle Hi) as (_ & _ & Hd).
    split; [exact Hd |]. simpl. rewrite Hd. reflexivity.
  - intros Hst.
    assert (isPaused s = true) as Hp
      by (destruct (isPaused s); [reflexivity |];
          destruct (startTime s); discriminate).
    destruct (startTime s) as [t |] eqn:Ht.
    + assert (pauseBtnDisabled s = false) as Hd
        by (apply Hstarted; discriminate).
      clear Hidle Hstarted Hst Hs. by_cases s.
    + destruct (Hidle eq_refl) as (_ & Hnp & _). congruence.
Qed.

Lemma pause_click_outside_tracking_witness :
  let s := initialize (N := RealNum) blankPage in
  reachable blankPage s /\
  sessionState s = Idle /\
  pauseBtnDisabled s = true /\
  dispatch (ClickPause (env_at 5000)) s = (s, []).
Proof.
  intros s.
  assert (reachable blankPage s) as Hs by constructor.
  split; [exact Hs |]. split; [reflexivity |].
  exact (proj1 (pause_click_outside_tracking RealNum blankPage s
                  (env_at 5000) Hs) eq_refl).
Defined.

(** C6 as stated fails: while paused the script computes nothing from the
    pause instant; the display keeps what the last tick wrote.  Start at
    1000 ms, a tick at 2000 ms, pause at 3004 ms (before the tick that was
    due), a tick at 3005 ms: the display stays at 1 s, where
    [pausedTime - startTime - totalPausedDuration] is 2 s. *)
Lemma paused_display_lags_pause_instant :
  let s :=
    run [ClickStart (env_at 1000); TimerTick 2000; ClickPause (env_at 3004);
         TimerTick 3005] (initialize (N := RealNum) blankPage) in
  sessionState s = Paused /\
  startTime s = Some 1000 /\
  pausedTime s = 3004 /\
  totalPausedDuration s = 0 /\
  durationText s = Str "00:00:01" /\
  formatDuration (3004 - 1000 - 0) = "00:00:02".
Proof. repeat split; reflexivity. Qed.

(** C6, amended.  While the session is paused a tick of the timer changes
    nothing: whatever the instants and however many the ticks, the state,
    and with it the duration shown (the one the last tick before the pause
    wrote), stays as it is. *)
Theorem paused_duration_is_frozen :
  forall (N : NumOps) (s : State) (nows : list Z),
  sessionState s = Paused ->
  run (map TimerTick nows) s = s /\
  forall now1 now2 : Z,
    durationText (fst (dispatch (TimerTick now1) s)) =
    durationText (fst (dispatch (TimerTick now2) s)).
Proof.
  intros N s nows Hst.
  assert (isPaused s = true) as Hp.
  { unfold sessionState in Hst. destruct (isPaused s); [reflexivity |].
    destruct (startTime s); discriminate. }
  assert (forall t, fst (dispatch (TimerTick t) s) = s) as Htick.
  { intros t. simpl. destruct (timerInterval s); simpl; [| reflexivity].
    apply timerTick_paused, Hp. }
  split.
  - induction nows as [| t nows IH]; [reflexivity |].
    change (run (map TimerTick nows) (fst (dispatch (TimerTick t) s)) = s).
    rewrite (Htick t). exact IH.
  - intros now1 now2. rewrite !Htick. reflexivity.
Qed.

Lemma paused_duration_is_frozen_witness :
  let s := pausedSession (N := RealNum) in
  sessionState s = Paused /\
  run (map TimerTick [12000; 13000; 60000]) s = s /\
  forall now1 now2 : Z,
    durationText (fst (dispatch (TimerTick now1) s)) =
    durationText (fst (dispatch (TimerTick now2) s)).
Proof.
  intros s.
  assert (sessionState s = Paused) as Hst by apply pausedSession_fields.
  split; [exact Hst |].
  exact (paused_duration_is_frozen RealNum s [12000; 13000; 60000] Hst).
Defined.

(** C7.  From every state, [handleReset] leaves an idle session: start
    time and pause instant cleared, no accumulated pause, distance 0, no
    coordinates, no watch and no timer; the duration shows "-", and a tick
    after the reset changes nothing. *)
Theorem reset_returns_to_idle :
  forall (N : NumOps) (s : State),
  let s' := handleReset s in
  sessionState s' = Idle /\
  distance s' = lit 0 /\
  coordinates s' = [] /\
  totalPausedDuration s' = 0 /\
  startTime s' = None /\
  pausedTime s' = 0 /\
  isPaused s' = false /\
  watchId s' = None /\
  timerInterval s' = None /\
  durationText s' = Str "-" /\
  forall now : Z,
    timerTick now s' = s' /\ fst (dispatch (TimerTick now) s') = s'.
Proof.
  intros N s.
  destruct s as [w st ti pt tpd d cs ip pl t1 t2 t3 b1 b2 l2 b3].
  destruct w as [id |]; intros s';
    do 10 (split; [reflexivity |]);
    intros now; apply timerTick_idle; reflexivity.
Qed.

(** C9 as stated fails: nothing checks the range of a coordinate.  The
    coordinate (100, 200), latitude above 90 and longitude above 180, is
    appended to the path of a tracking session and no condition is
    shown. *)
Lemma out_of_range_coordinate_is_accepted :
  let s := trackingSession (N := RealNum) in
  let r := dispatch (PositionUpdate (lit 100) (lit 200)) s in
  ltb (NumOps := RealNum) (lit 90) (lit 100) = true /\
  ltb (NumOps := RealNum) (lit 180) (lit 200) = true /\
  sessionState s = Tracking /\
  snd r = [] /\
  coordinates (fst r) = coordinates s ++ [(lit 100, lit 200)] /\
  coordinates (fst r) <> coordinates s.
Proof.
  intros s r.
  assert (coordinates (fst r) = coordinates s ++ [(lit 100, lit 200)]) as Hc
    by apply (onPositionUpdate_coordinates (N := RealNum)).
  split; [simpl; destruct (Rlt_dec 90 100) as [_ | Hn]; [reflexivity | lra] |].
  split; [simpl; destruct (Rlt_dec 180 200) as [_ | Hn]; [reflexivity | lra] |].
  split; [apply trackingSession_fields |].
  split; [reflexivity |].
  split; [exact Hc |].
  rewrite Hc. apply snoc_differs.
Qed.

(** C9, amended.  [onPositionUpdate] accepts every coordinate, whatever
    its latitude and longitude: it appends the coordinate to [coordinates],
    adds the distance from the previous coordinate, when there is one, to
    [distance], and an active watch delivers it without any alert. *)
Theorem onPositionUpdate_accepts_every_coordinate :
  forall (N : NumOps) (lat lon : Num) (s : State),
  coordinates (onPositionUpdate lat lon s) = coordinates s ++ [(lat, lon)] /\
  (coordinates s = [] -> distance (onPositionUpdate lat lon s) = distance s) /\
  (forall cs p, coordinates s = cs ++ [p] ->
     distance (onPositionUpdate lat lon s) =
     add (distance s) (calculateDistance (fst p) (snd p) lat lon)) /\
  (watchId s <> None ->
     dispatch (PositionUpdate lat lon) s = (onPositionUpdate lat lon s, [])).
Proof.
  intros N lat lon s.
  split; [apply onPositionUpdate_coordinates |].
  split; [apply onPositionUpdate_first |].
  split; [intros cs p; apply onPositionUpdate_next |].
  intros Hw. simpl. destruct (watchId s); [reflexivity | congruence].
Qed.

(** * Further properties of the script *)

(** ** The timer text *)

Lemma padStart2_two_digits (n : Z) :
  0 <= n < 100 -> String.length (padStart2 (String_of n)) = 2%nat.
Proof.
  intros Hn.
  assert (forallb
            (fun k => Nat.eqb (String.length (padStart2 (String_of (Z.of_nat k)))) 2)
            (seq 0 100) = true) as Hall by (vm_compute; reflexivity).
  rewrite forallb_forall in Hall.
  specialize (Hall (Z.to_nat n)).
  rewrite Z2Nat.id in Hall by lia.
  apply Nat.eqb_eq, Hall, in_seq. lia.
Qed.

Lemma length_append (a b : string) :
  String.length (a ++ b)%string = (String.length a + String.length b)%nat.
Proof. induction a as [| c a IH]; simpl; [reflexivity | rewrite IH; reflexivity]. Qed.

Lemma duration_fields (ms : Z) :
  0 <= ms ->
  0 <= seconds_of ms < 60 /\ 0 <= minutes_of ms < 60 /\ 0 <= hours_of ms /\
  ms / 1000 = hours_of ms * 3600 + minutes_of ms * 60 + seconds_of ms.
Proof.
  intros Hms. unfold seconds_of, minutes_of, hours_of.
  rewrite !Z.rem_mod_nonneg by lia.
  change (1000 * 60) with 60000. change (1000 * 60 * 60) with 3600000.
  change (60000 * 60) with 3600000.
  pose proof (Z.mod_pos_bound ms 60000 ltac:(lia)) as Hs.
  pose proof (Z.mod_pos_bound ms 3600000 ltac:(lia)) as Hm.
  pose proof (Z.div_mod ms 60000 ltac:(lia)) as Es.
  pose proof (Z.div_mod ms 3600000 ltac:(lia)) as Em.
  pose proof (Z.div_mod ms 1000 ltac:(lia)) as E1.
  pose proof (Z.mod_pos_bound ms 1000 ltac:(lia)) as H1.
  pose proof (Z.div_mod (ms mod 60000) 1000 ltac:(lia)) as Ess.
  pose proof (Z.mod_pos_bound (ms mod 60000) 1000 ltac:(lia)) as Hss.
  pose proof (Z.div_mod (ms mod 3600000) 60000 ltac:(lia)) as Emm.
  pose proof (Z.mod_pos_bound (ms mod 3600000) 60000 ltac:(lia)) as Hmm.
  assert (0 <= ms / 3600000) by (apply Z.div_pos; lia).
  assert (0 <= ms mod 60000 / 1000 < 60)
    by (split; [apply Z.div_pos; lia | apply Z.div_lt_upper_bound; lia]).
  assert (0 <= ms mod 3600000 / 60000 < 60)
    by (split; [apply Z.div_pos; lia | apply Z.div_lt_upper_bound; lia]).
  repeat split; lia.
Qed.

(** X1.  For an elapsed time that is not negative, the three numbers the
    timer shows are minutes and seconds between 0 and 59 and hours from 0
    up, and together they are the elapsed time in whole seconds. *)
Theorem timer_shows_hours_minutes_seconds :
  forall ms : Z,
  0 <= ms ->
  0 <= seconds_of ms < 60 /\ 0 <= minutes_of ms < 60 /\ 0 <= hours_of ms /\
  ms / 1000 = hours_of ms * 3600 + minutes_of ms * 60 + seconds_of ms.
Proof. exact duration_fields. Qed.

Lemma timer_shows_hours_minutes_seconds_witness :
  0 <= 3725999 /\
  0 <= seconds_of 3725999 < 60 /\ 0 <= minutes_of 3725999 < 60 /\
  0 <= hours_of 3725999 /\
  3725999 / 1000 =
    hours_of 3725999 * 3600 + minutes_of 3725999 * 60 + seconds_of 3725999.
Proof.
  split; [lia |].
  apply (timer_shows_hours_minutes_seconds 3725999). lia.
Defined.

(** X2.  Below one hundred hours the timer text has the eight characters
    of HH:MM:SS. *)
Theorem timer_text_has_eight_characters :
  forall ms : Z,
  0 <= ms < 100 * (1000 * 60 * 60) ->
  String.length (formatDuration ms) = 8%nat.
Proof.
  intros ms [Hlo Hhi].
  destruct (duration_fields ms Hlo) as (Hs & Hm & Hh & _).
  assert (hours_of ms < 100) as Hh'
    by (unfold hours_of; apply Z.div_lt_upper_bound; lia).
  unfold formatDuration. rewrite !length_append.
  rewrite !padStart2_two_digits by lia. reflexivity.
Qed.

Lemma timer_text_has_eight_characters_witness :
  0 <= 3725999 < 100 * (1000 * 60 * 60) /\
  String.length (formatDuration 3725999) = 8%nat.
Proof.
  split; [lia |].
  apply (timer_text_has_eight_characters 3725999). lia.
Defined.

(** ** The timer callback *)

Section MoreSessionFacts.
Context {N : NumOps}.

Lemma handleReset_constant (s : State) : handleReset s = idleAfterReset.
Proof.
  destruct s as [w st ti pt tpd d cs ip pl t1 t2 t3 b1 b2 l2 b3].
  destruct w; reflexivity.
Qed.

Lemma timerTick_writes (now : Z) (s : State) :
  timerTick now s = set_durationText (durationText (timerTick now s)) s.
Proof.
  destruct s as [w st ti pt tpd d cs ip pl t1 t2 t3 b1 b2 l2 b3].
  unfold timerTick. cbn [startTime isPaused totalPausedDuration].
  destruct st as [t |]; [| reflexivity].
  destruct (negb (t =? 0) && negb ip); reflexivity.
Qed.

Lemma timerTick_overwrites (now1 now2 : Z) (s : State) :
  timerTick now2 (timerTick now1 s) = timerTick now2 s.
Proof.
  destruct s as [w st ti pt tpd d cs ip pl t1 t2 t3 b1 b2 l2 b3].
  unfold timerTick. cbn [startTime isPaused totalPausedDuration].
  destruct st as [t |]; [| reflexivity].
  destruct (negb (t =? 0) && negb ip) eqn:Hrun.
  - cbn [startTime isPaused totalPausedDuration set_durationText].
    rewrite Hrun. reflexivity.
  - cbn [startTime isPaused]. rewrite Hrun. reflexivity.
Qed.

End MoreSessionFacts.

(** ** What the page shows *)

Section Coherence.
Context {N : NumOps}.

Lemma drawn_snoc (cs : list Coord) (c : Coord) :
  drawn (cs ++ [c]) = Some (cs ++ [c]).
Proof. destruct cs; reflexivity. Qed.

Lemma initialize_coherent (page : Page) : coherent page (initialize page).
Proof. split; [reflexivity | left; reflexivity]. Qed.

Lemma idleAfterReset_coherent (page : Page) : coherent page idleAfterReset.
Proof. split; [reflexivity | right; reflexivity]. Qed.

(** A start that gets past the guard sets every variable. *)
Lemma handleStart_fresh (e : Env) (s : State) :
  watchId s = None ->
  handleStart e s = handleStart e idleAfterReset.
Proof.
  destruct s as [w st ti pt tpd d cs ip pl t1 t2 t3 b1 b2 l2 b3].
  cbn [watchId]. intros ->.
  unfold handleStart, startTracking. cbn [watchId].
  destruct (geolocation e); reflexivity.
Qed.

Lemma handleStart_coherent (page : Page) (e : Env) :
  coherent page (fst (handleStart e idleAfterReset)).
Proof.
  unfold handleStart, startTracking. cbn [watchId idleAfterReset].
  destruct (geolocation e); split; try reflexivity;
    cbn; unfold in_session; cbn; repeat split; congruence.
Qed.

Lemma onPositionUpdate_polyline (lat lon : Num) (s : State) :
  polyline (onPositionUpdate lat lon s) =
  drawn (coordinates (onPositionUpdate lat lon s)).
Proof.
  rewrite onPositionUpdate_coordinates, drawn_snoc.
  unfold onPositionUpdate. simpl. destruct (1 <? _)%nat; reflexivity.
Qed.

(** [onPositionUpdate] writes the path, the line, the distance and its
    text, and nothing else. *)
Lemma onPositionUpdate_frame (lat lon : Num) (s : State) :
  let s' := onPositionUpdate lat lon s in
  watchId s' = watchId s /\ startTime s' = startTime s /\
  timerInterval s' = timerInterval s /\ pausedTime s' = pausedTime s /\
  totalPausedDuration s' = totalPausedDuration s /\
  isPaused s' = isPaused s /\
  startTimeText s' = startTimeText s /\ durationText s' = durationText s /\
  startBtnDisabled s' = startBtnDisabled s /\
  pauseBtnDisabled s' = pauseBtnDisabled s /\
  pauseBtnText s' = pauseBtnText s /\
  resetBtnDisabled s' = resetBtnDisabled s.
Proof.
  unfold onPositionUpdate. simpl.
  destruct (1 <? _)%nat; simpl; repeat split; reflexivity.
Qed.

Lemma onPositionUpdate_writes_distanceText (lat lon : Num) (s : State) :
  distanceText (onPositionUpdate lat lon s) =
  if (1 <? List.length (coordinates s ++ [(lat, lon)]))%nat
  then ToFixed2 (distance (onPositionUpdate lat lon s))
  else distanceText s.
Proof.
  unfold onPositionUpdate. simpl.
  destruct (1 <? _)%nat; reflexivity.
Qed.

Lemma onPositionUpdate_distanceText (lat lon : Num) (s : State) :
  distanceText s = shownDistance s ->
  distanceText (onPositionUpdate lat lon s) =
  shownDistance (onPositionUpdate lat lon s).
Proof.
  intros Hshown. rewrite onPositionUpdate_writes_distanceText.
  unfold shownDistance in *. rewrite onPositionUpdate_coordinates.
  assert (List.length (coordinates s ++ [(lat, lon)]) =
          S (List.length (coordinates s))) as ->
    by (rewrite length_app; simpl; lia).
  destruct (List.length (coordinates s)) as [| m]; simpl in *.
  - exact Hshown.
  - reflexivity.
Qed.

Lemma onPositionUpdate_coherent (page : Page) (lat lon : Num) (s : State) :
  watchId s <> None ->
  coherent page s -> coherent page (onPositionUpdate lat lon s).
Proof.
  intros Hw [_ Hst]. split; [apply onPositionUpdate_polyline |].
  destruct (onPositionUpdate_frame lat lon s)
    as (Ew & Est & Eti & _ & _ & Eip & Et1 & _ & Eb1 & Eb2 & El & Eb3).
  rewrite Est. destruct (startTime s) as [t |].
  - destruct Hst as (Hti & Hb1 & Hb2 & Hb3 & Hl & Ht1 & Ht3).
    unfold in_session.
    rewrite Eti, Eb1, Eb2, Eb3, El, Eip, Et1.
    repeat split; try assumption.
    apply onPositionUpdate_distanceText, Ht3.
  - destruct Hst as [Hs | Hs]; subst s; contradiction Hw; reflexivity.
Qed.

Lemma dispatch_coherent (page : Page) (ev : Event) (s : State) :
  coherent page s -> coherent page (fst (dispatch ev s)).
Proof.
  intros Hc. destruct ev as [e | e | | lat lon | msg | t].
  - cbn [dispatch]. destruct (startBtnDisabled s) eqn:Hb; [exact Hc |].
    assert (watchId s = None) as Hw.
    { destruct Hc as [_ Hst]. destruct (startTime s) as [t |].
      - destruct Hst as (_ & Hb1 & _). congruence.
      - destruct Hst as [-> | ->]; reflexivity. }
    rewrite (handleStart_fresh e s Hw). apply handleStart_coherent.
  - cbn [dispatch]. destruct (pauseBtnDisabled s) eqn:Hb; [exact Hc |].
    destruct Hc as [Hpoly Hst].
    destruct s as [w st ti pt tpd d cs ip pl t1 t2 t3 b1 b2 l2 b3].
    cbn in Hb, Hpoly, Hst. destruct st as [t |].
    + unfold in_session in Hst. cbn in Hst.
      destruct Hst as (Hti & Hb1 & Hb2 & Hb3 & Hl & Ht1 & Ht3).
      unfold coherent, in_session, shownDistance, handlePause, startTracking,
        stopTracking, startTimer in *.
      destruct ip; cbn.
      * destruct (geolocation e); cbn; repeat split;
          try assumption; try reflexivity; discriminate.
      * destruct w; cbn; repeat split; try assumption; reflexivity.
    + destruct Hst as [Hs | Hs]; inversion Hs; subst; discriminate.
  - cbn [dispatch]. destruct (resetBtnDisabled s); [exact Hc |].
    cbn [fst]. rewrite handleReset_constant. apply idleAfterReset_coherent.
  - cbn [dispatch]. destruct (watchId s) eqn:Hw; [| exact Hc].
    cbn [fst]. apply onPositionUpdate_coherent; [congruence | exact Hc].
  - cbn [dispatch]. destruct (watchId s); exact Hc.
  - cbn [dispatch]. destruct (timerInterval s) eqn:Hti; [| exact Hc].
    cbn [fst]. rewrite timerTick_writes.
    destruct Hc as [Hpoly Hst].
    destruct s as [w st ti pt tpd d cs ip pl t1 t2 t3 b1 b2 l2 b3].
    cbn in Hti, Hpoly, Hst. destruct st as [t0 |].
    + split; [exact Hpoly | exact Hst].
    + destruct Hst as [Hs | Hs]; inversion Hs; subst; discriminate.
Qed.

Lemma reachable_coherent (page : Page) (s : State) :
  reachable page s -> coherent page s.
Proof.
  induction 1 as [| s ev _ IH]; [apply initialize_coherent |].
  apply dispatch_coherent, IH.
Qed.

End Coherence.

(** X3.  While a session is started (from Start until Reset, paused or
    not) the timer interval is running, Start is disabled, Pause and Reset
    are enabled, and the Pause button reads "Resume" exactly when the
    session is paused. *)
Theorem controls_follow_the_session :
  forall (N : NumOps) (page : Page) (s : State) (t : Z),
  reachable page s ->
  startTime s = Some t ->
  timerInterval s <> None /\
  startBtnDisabled s = true /\
  pauseBtnDisabled s = false /\
  resetBtnDisabled s = false /\
  pauseBtnText s = (if isPaused s then "Resume" else "Pause").
Proof.
  intros N page s t Hs Ht.
  destruct (reachable_coherent page s Hs) as [_ Hst]. rewrite Ht in Hst.
  destruct Hst as (Hti & Hb1 & Hb2 & Hb3 & Hl & _).
  repeat split; assumption.
Qed.

Lemma controls_follow_the_session_witness :
  let s := pausedSession (N := RealNum) in
  reachable blankPage s /\ startTime s = Some 1000 /\
  timerInterval s <> None /\
  startBtnDisabled s = true /\
  pauseBtnDisabled s = false /\
  resetBtnDisabled s = false /\
  pauseBtnText s = (if isPaused s then "Resume" else "Pause").
Proof.
  intros s.
  destruct (pausedSession_fields (N := RealNum)) as (_ & _ & Ht & _).
  split; [apply pausedSession_reachable |]. split; [exact Ht |].
  exact (controls_follow_the_session RealNum blankPage s 1000
           pausedSession_reachable Ht).
Defined.

(** X4.  While a session is started the start-time display shows the
    start instant, and the distance display shows "0.00" up to the first
    position and the accumulated distance, with two decimals, from the
    second position on. *)
Theorem displays_follow_the_session :
  forall (N : NumOps) (page : Page) (s : State) (t : Z),
  reachable page s ->
  startTime s = Some t ->
  startTimeText s = LocaleTimeString t /\
  distanceText s =
    (if (List.length (coordinates s) <? 2)%nat then Str "0.00"
     else ToFixed2 (distance s)).
Proof.
  intros N page s t Hs Ht.
  destruct (reachable_coherent page s Hs) as [_ Hst]. rewrite Ht in Hst.
  destruct Hst as (_ & _ & _ & _ & _ & Ht1 & Ht3).
  split; assumption.
Qed.

Lemma displays_follow_the_session_witness :
  let s := run [PositionUpdate (lit 0) (lit 1)] (trackingSession (N := RealNum)) in
  reachable blankPage s /\ startTime s = Some 1000 /\
  startTimeText s = LocaleTimeString 1000 /\
  distanceText s =
    (if (List.length (coordinates s) <? 2)%nat then Str "0.00"
     else ToFixed2 (distance s)).
Proof.
  intros s.
  assert (reachable blankPage s) as Hs
    by (apply reachable_run, trackingSession_reachable).
  assert (startTime s = Some 1000) as Ht by reflexivity.
  split; [exact Hs |]. split; [exact Ht |].
  exact (displays_follow_the_session RealNum blankPage s 1000 Hs Ht).
Defined.

(** X5.  Whenever no session is started the page is in one of two states:
    the one [initialize] set up, or the single state that [handleReset]
    produces whatever it is applied to. *)
Theorem idle_page_is_initial_or_reset :
  forall (N : NumOps) (page : Page) (s : State),
  reachable page s ->
  startTime s = None ->
  s = initialize page \/ (forall s0 : State, handleReset s0 = s).
Proof.
  intros N page s Hs Hi.
  destruct (reachable_coherent page s Hs) as [_ Hst]. rewrite Hi in Hst.
  destruct Hst as [-> | ->]; [left; reflexivity | right].
  apply handleReset_constant.
Qed.

Lemma idle_page_is_initial_or_reset_witness :
  let s := run [ClickReset] (pausedSession (N := RealNum)) in
  reachable blankPage s /\ startTime s = None /\
  (s = initialize blankPage \/ (forall s0 : State, handleReset s0 = s)).
Proof.
  intros s.
  assert (reachable blankPage s) as Hs
    by (apply reachable_run, pausedSession_reachable).
  assert (startTime s = None) as Hi by reflexivity.
  split; [exact Hs |]. split; [exact Hi |].
  exact (idle_page_is_initial_or_reset RealNum blankPage s Hs Hi).
Defined.

(** X6.  The line on the map always shows the recorded path: there is no
    line while no coordinate has been received, and otherwise the line was
    last given exactly [coordinates]. *)
Theorem line_on_map_is_the_path :
  forall (N : NumOps) (page : Page) (s : State),
  reachable page s ->
  polyline s =
    match coordinates s with
    | [] => None
    | _ :: _ => Some (coordinates s)
    end.
Proof.
  intros N page s Hs.
  destruct (reachable_coherent page s Hs) as [Hpoly _].
  rewrite Hpoly. unfold drawn. destruct (coordinates s); reflexivity.
Qed.

Lemma line_on_map_is_the_path_witness :
  let s := trackingSession (N := RealNum) in
  reachable blankPage s /\
  polyline s =
    match coordinates s with
    | [] => None
    | _ :: _ => Some (coordinates s)
    end.
Proof.
  intros s. split; [apply trackingSession_reachable |].
  exact (line_on_map_is_the_path RealNum blankPage s trackingSession_reachable).
Defined.

(** X7.  A start that passes the guard (no active watch) sets every
    variable and every display: the state and the alerts after it depend
    on the browser only, not on the state before, so nothing of an earlier
    session, paused or reset, is carried over. *)
Theorem start_carries_nothing_over :
  forall (N : NumOps) (e : Env) (s1 s2 : State),
  watchId s1 = None -> watchId s2 = None ->
  handleStart e s1 = handleStart e s2.
Proof.
  intros N e s1 s2 H1 H2.
  rewrite (handleStart_fresh e s1 H1), (handleStart_fresh e s2 H2).
  reflexivity.
Qed.

Lemma start_carries_nothing_over_witness :
  watchId (pausedSession (N := RealNum)) = None /\
  watchId (initialize (N := RealNum) blankPage) = None /\
  handleStart (env_at 12000) (pausedSession (N := RealNum)) =
  handleStart (env_at 12000) (initialize blankPage).
Proof.
  destruct (pausedSession_fields (N := RealNum)) as (_ & H1 & _).
  assert (watchId (initialize (N := RealNum) blankPage) = None) as H2
    by reflexivity.
  split; [exact H1 |]. split; [exact H2 |].
  exact (start_carries_nothing_over RealNum (env_at 12000) _ _ H1 H2).
Defined.

Section MoreHandlers.
Context {N : NumOps}.

Lemma handlePause_twice (e1 e2 : Env) (s : State) :
  isPaused s = false ->
  fst (handlePause e2 (fst (handlePause e1 s))) =
    set_pauseBtnText "Pause"
      (set_timerInterval (Some (intervalId e2))
         (set_pausedTime (now e1) (set_watchId (geolocation e2) s))) /\
  snd (handlePause e1 s) = [] /\
  snd (handlePause e2 (fst (handlePause e1 s))) =
    match geolocation e2 with
    | Some _ => []
    | None => ["Geolocation is not supported by your browser."]
    end.
Proof.
  destruct s as [w st ti pt tpd d cs ip pl t1 t2 t3 b1 b2 l2 b3].
  cbn [isPaused]. intros ->.
  unfold handlePause, startTracking, stopTracking, startTimer.
  destruct w; cbn [isPaused set_isPaused negb watchId];
    cbn [isPaused set_pauseBtnText set_pausedTime set_watchId negb fst];
    destruct (geolocation e2); repeat split; reflexivity.
Qed.

Lemma dispatch_without_geolocation (ev : Event) (s : State) :
  without_geolocation ev ->
  watchId s = None /\ coordinates s = [] /\ distance s = lit 0 ->
  watchId (fst (dispatch ev s)) = None /\
  coordinates (fst (dispatch ev s)) = [] /\
  distance (fst (dispatch ev s)) = lit 0.
Proof.
  intros Hev (Hw & Hcs & Hd).
  destruct ev as [e | e | | lat lon | msg | t]; simpl in Hev.
  - by_cases s.
  - by_cases s.
  - by_cases s.
  - simpl. rewrite Hw. simpl. auto.
  - by_cases s.
  - by_cases s.
Qed.

Lemma start_click_alerts (page : Page) (e : Env) (s : State) :
  reachable page s ->
  snd (dispatch (ClickStart e) s) = [] \/
  snd (dispatch (ClickStart e) s) =
    ["Geolocation is not supported by your browser."].
Proof.
  intros Hs. cbn [dispatch].
  destruct (startBtnDisabled s) eqn:Hb; [left; reflexivity |].
  assert (watchId s = None) as Hw.
  { destruct (reachable_coherent page s Hs) as [_ Hst].
    destruct (startTime s) as [t |].
    - destruct Hst as (_ & Hb1 & _). congruence.
    - destruct Hst as [-> | ->]; reflexivity. }
  rewrite (handleStart_fresh e s Hw).
  unfold handleStart, startTracking. cbn [watchId idleAfterReset].
  destruct (geolocation e); [left | right]; reflexivity.
Qed.

End MoreHandlers.

(** X8.  Pause followed by resume gives the session back as it was: the
    path, the distance, the start time, the accumulated pause, the displays
    and the buttons are those before the pause.  What differs is the
    watch and the interval, which are new ones, and [pausedTime], which
    keeps the instant of the pause.  The pause shows no alert; the resume
    shows one only when the browser has no geolocation. *)
Theorem pause_then_resume :
  forall (N : NumOps) (e1 e2 : Env) (s : State),
  isPaused s = false ->
  fst (handlePause e2 (fst (handlePause e1 s))) =
    set_pauseBtnText "Pause"
      (set_timerInterval (Some (intervalId e2))
         (set_pausedTime (now e1) (set_watchId (geolocation e2) s))) /\
  snd (handlePause e1 s) = [] /\
  snd (handlePause e2 (fst (handlePause e1 s))) =
    match geolocation e2 with
    | Some _ => []
    | None => ["Geolocation is not supported by your browser."]
    end.
Proof. intros N. exact handlePause_twice. Qed.

Lemma pause_then_resume_witness :
  let s := trackingSession (N := RealNum) in
  let e1 := env_at 11000 in
  let e2 := env_at 16000 in
  isPaused s = false /\
  fst (handlePause e2 (fst (handlePause e1 s))) =
    set_pauseBtnText "Pause"
      (set_timerInterval (Some (intervalId e2))
         (set_pausedTime (now e1) (set_watchId (geolocation e2) s))) /\
  snd (handlePause e1 s) = [] /\
  snd (handlePause e2 (fst (handlePause e1 s))) =
    match geolocation e2 with
    | Some _ => []
    | None => ["Geolocation is not supported by your browser."]
    end.
Proof.
  intros s e1 e2.
  assert (isPaused s = false) as Hp by reflexivity.
  split; [exact Hp |].
  exact (pause_then_resume RealNum e1 e2 s Hp).
Defined.

(** X9.  In a browser without geolocation nothing is ever recorded:
    whatever is clicked and however the timer ticks, there is no watch,
    the path stays empty and the distance stays 0. *)
Theorem without_geolocation_nothing_is_recorded :
  forall (N : NumOps) (page : Page) (evs : list Event),
  Forall without_geolocation evs ->
  let s := run evs (initialize page) in
  watchId s = None /\ coordinates s = [] /\ distance s = lit 0.
Proof.
  intros N page evs Hevs.
  assert (forall s0 : State,
            watchId s0 = None /\ coordinates s0 = [] /\ distance s0 = lit 0 ->
            watchId (run evs s0) = None /\ coordinates (run evs s0) = [] /\
            distance (run evs s0) = lit 0) as Hrun.
  { induction Hevs as [| ev evs Hev _ IH]; intros s0 H0; [exact H0 |].
    apply (IH (fst (dispatch ev s0))).
    apply dispatch_without_geolocation; assumption. }
  apply Hrun. repeat split; reflexivity.
Qed.

Lemma without_geolocation_nothing_is_recorded_witness :
  let e := {| now := 1000; geolocation := None; intervalId := 1 |} in
  let evs : list (Event (N := RealNum)) :=
    [ClickStart e; PositionUpdate (lit 0) (lit 1); TimerTick 2000;
     ClickPause e; ClickPause e] in
  let s := run evs (initialize blankPage) in
  Forall without_geolocation evs /\
  watchId s = None /\ coordinates s = [] /\ distance s = lit 0.
Proof.
  intros e evs s.
  assert (Forall without_geolocation evs) as Hevs
    by (repeat constructor).
  split; [exact Hevs |].
  exact (without_geolocation_nothing_is_recorded RealNum blankPage evs Hevs).
Defined.

(** X10.  The timer callback writes the duration display and nothing
    else, and what it writes replaces what an earlier tick wrote: after
    two ticks the state is the one the second tick alone gives. *)
Theorem tick_overwrites_earlier_tick :
  forall (N : NumOps) (now1 now2 : Z) (s : State),
  timerTick now1 s = set_durationText (durationText (timerTick now1 s)) s /\
  timerTick now2 (timerTick now1 s) = timerTick now2 s.
Proof.
  intros N now1 now2 s.
  split; [apply timerTick_writes | apply timerTick_overwrites].
Qed.

(** X11.  While the session is tracking, a tick at the instant [now] shows
    the time since the start, [now - startTime], whatever pauses there
    were: [totalPausedDuration] is 0 in every state the page reaches. *)
Theorem tracking_tick_shows_time_since_start :
  forall (N : NumOps) (page : Page) (s : State) (t now : Z),
  reachable page s ->
  startTime s = Some t -> t <> 0 -> isPaused s = false ->
  totalPausedDuration s = 0 /\
  durationText (fst (dispatch (TimerTick now) s)) =
    Str (formatDuration (now - t)).
Proof.
  intros N page s t now Hs Ht Ht0 Hp.
  pose proof (reachable_totalPausedDuration page s Hs) as Htpd.
  destruct (reachable_coherent page s Hs) as [_ Hst]. rewrite Ht in Hst.
  destruct Hst as (Hti & _).
  split; [exact Htpd |].
  cbn [dispatch]. destruct (timerInterval s); [| congruence].
  cbn [fst]. unfold timerTick. rewrite Ht, Hp, Htpd.
  replace (t =? 0) with false by (symmetry; apply Z.eqb_neq; exact Ht0).
  cbn [negb andb]. rewrite Z.sub_0_r. reflexivity.
Qed.

Lemma tracking_tick_shows_time_since_start_witness :
  let s :=
    run [ClickPause (env_at 16000)] (pausedSession (N := RealNum)) in
  reachable blankPage s /\
  startTime s = Some 1000 /\ 1000 <> 0 /\ isPaused s = false /\
  totalPausedDuration s = 0 /\
  durationText (fst (dispatch (TimerTick 21000) s)) =
    Str (formatDuration (21000 - 1000)).
Proof.
  intros s.
  assert (reachable blankPage s) as Hs
    by (apply reachable_run, pausedSession_reachable).
  assert (startTime s = Some 1000) as Ht by reflexivity.
  assert (1000 <> 0) as Ht0 by lia.
  assert (isPaused s = false) as Hp by reflexivity.
  split; [exact Hs |]. split; [exact Ht |]. split; [exact Ht0 |].
  split; [exact Hp |].
  exact (tracking_tick_shows_time_since_start RealNum blankPage s 1000 21000
           Hs Ht Ht0 Hp).
Defined.

(** X12.  A click on Start never shows "Activity already started. Pause or
    Reset first.": whenever the guard of [handleStart] would fire, the
    Start button is disabled.  The only alert a click on Start can show is
    the one for a missing geolocation service. *)
Theorem start_button_never_shows_already_started :
  forall (N : NumOps) (page : Page) (s : State) (e : Env),
  reachable page s ->
  ~ In "Activity already started. Pause or Reset first."
       (snd (dispatch (ClickStart e) s)) /\
  (snd (dispatch (ClickStart e) s) = [] \/
   snd (dispatch (ClickStart e) s) =
     ["Geolocation is not supported by your browser."]).
Proof.
  intros N page s e Hs.
  pose proof (start_click_alerts page e s Hs) as Halerts.
  split; [| exact Halerts].
  destruct Halerts as [-> | ->]; simpl; [tauto |].
  intros [H | []]. discriminate H.
Qed.

Lemma start_button_never_shows_already_started_witness :
  let s := trackingSession (N := RealNum) in
  let e := env_at 5000 in
  reachable blankPage s /\
  ~ In "Activity already started. Pause or Reset first."
       (snd (dispatch (ClickStart e) s)) /\
  (snd (dispatch (ClickStart e) s) = [] \/
   snd (dispatch (ClickStart e) s) =
     ["Geolocation is not supported by your browser."]).
Proof.
  intros s e. split; [apply trackingSession_reachable |].
  exact (start_button_never_shows_already_started RealNum blankPage s e
           trackingSession_reachable).
Defined.

(** ** The leg between antipodes, in doubles *)

Section TwoPositions.
Context {N : NumOps}.

(** A session started on a blank page that receives two positions. *)
Lemma two_positions (lat1 lon1 lat2 lon2 : Num) :
  let s :=
    run [ClickStart (env_at 1000); PositionUpdate lat1 lon1;
         PositionUpdate lat2 lon2] (initialize blankPage) in
  sessionState s = Tracking /\
  coordinates s = [(lat1, lon1); (lat2, lon2)] /\
  distance s = add (lit 0) (calculateDistance lat1 lon1 lat2 lon2) /\
  distanceText s = ToFixed2 (distance s).
Proof.
  set (s0 := fst (dispatch (ClickStart (env_at 1000)) (initialize blankPage))).
  set (s1 := onPositionUpdate lat1 lon1 s0).
  assert (watchId s0 = Some 1 /\ startTime s0 = Some 1000 /\
          isPaused s0 = false /\ coordinates s0 = [] /\ distance s0 = lit 0)
    as (Hw0 & Ht0 & Hp0 & Hcs0 & Hd0) by (repeat split; reflexivity).
  destruct (onPositionUpdate_frame lat1 lon1 s0)
    as (Hw1 & Ht1 & _ & _ & _ & Hp1 & _).
  fold s1 in Hw1, Ht1, Hp1.
  assert (coordinates s1 = [] ++ [(lat1, lon1)]) as Hcs1
    by (unfold s1; rewrite onPositionUpdate_coordinates, Hcs0; reflexivity).
  assert (distance s1 = lit 0) as Hd1
    by (unfold s1; rewrite (onPositionUpdate_first _ _ _ Hcs0); exact Hd0).
  intros s.
  assert (s = onPositionUpdate lat2 lon2 s1) as ->.
  { unfold s.
    change (fst (dispatch (PositionUpdate lat2 lon2)
                   (fst (dispatch (PositionUpdate lat1 lon1) s0)))
            = onPositionUpdate lat2 lon2 s1).
    assert (fst (dispatch (PositionUpdate lat1 lon1) s0) = s1) as ->
      by (cbn [dispatch]; rewrite Hw0; reflexivity).
    cbn [dispatch]. rewrite Hw1, Hw0. reflexivity. }
  destruct (onPositionUpdate_frame lat2 lon2 s1)
    as (_ & Ht2 & _ & _ & _ & Hp2 & _).
  assert (distance (onPositionUpdate lat2 lon2 s1) =
          add (lit 0) (calculateDistance lat1 lon1 lat2 lon2)) as Hd2
    by (rewrite (onPositionUpdate_next _ _ _ _ _ Hcs1), Hd1; reflexivity).
  split; [unfold sessionState; rewrite Hp2, Hp1, Hp0, Ht2, Ht1, Ht0;
          reflexivity |].
  split; [rewrite onPositionUpdate_coordinates, Hcs1; reflexivity |].
  split; [exact Hd2 |].
  rewrite onPositionUpdate_writes_distanceText, Hcs1. reflexivity.
Qed.

End TwoPositions.

Module DoubleFacts.
Import PrimFloat Doubles.

(** From (8, 0) to (-8, 180): the sum [a] is rounded to
    1.0000000000000002, [1 - a] is negative, its square root is NaN and so
    is everything computed from it. *)
Lemma antipodal_leg_is_nan (m : MathLibrary) :
  nearest_on_antipodal_leg m ->
  calculateDistance (N := DoubleNum m)
    (double_of_Z 8) (double_of_Z 0) (double_of_Z (-8)) (double_of_Z 180) = nan.
Proof.
  intros (Hs & Hsl & Hc1 & Hc2 & Hat).
  change (calculateDistance (N := DoubleNum m)
            (double_of_Z 8) (double_of_Z 0) (double_of_Z (-8)) (double_of_Z 180))
    with
    (let a :=
       (lib_sin m (-0x1.1df46a2529d39p-3) * lib_sin m (-0x1.1df46a2529d39p-3) +
        lib_cos m 0x1.1df46a2529d39p-3 * lib_cos m (-0x1.1df46a2529d39p-3) *
        lib_sin m 0x1.921fb54442d18p+0 * lib_sin m 0x1.921fb54442d18p+0)%float in
     (6371 * (2 * lib_atan2 m (sqrt a) (sqrt (1 - a))))%float).
  rewrite Hs, Hsl, Hc1, Hc2.
  change (6371 * (2 * lib_atan2 m 1 nan) = nan)%float.
  rewrite Hat. reflexivity.
Qed.

Lemma antipodes_are_valid (m : MathLibrary) :
  validCoordinate (N := DoubleNum m) (double_of_Z 8) (double_of_Z 0) = true /\
  validCoordinate (N := DoubleNum m) (double_of_Z (-8)) (double_of_Z 180) = true.
Proof. split; reflexivity. Qed.

Lemma legLibrary_nearest : nearest_on_antipodal_leg legLibrary.
Proof. repeat split; reflexivity. Qed.

End DoubleFacts.

(** C2.  The total is the sum of the legs, and one leg that is not a
    number makes it not a number: under a [Math] library that rounds to
    nearest on that leg, a session that receives the valid coordinates
    (8, 0) and then (-8, 180) has [distance] NaN (0 + NaN), which is not a
    number at least 0, and shows it, where the sum of the haversine
    distances is half the circumference of the Earth. *)
Theorem totalDistance_is_NaN_after_antipodal_leg :
  forall m : Doubles.MathLibrary,
  Doubles.nearest_on_antipodal_leg m ->
  let s :=
    run [ClickStart (env_at 1000);
         PositionUpdate (N := Doubles.DoubleNum m) (lit 8) (lit 0);
         PositionUpdate (lit (-8)) (lit 180)] (initialize blankPage) in
  sessionState s = Tracking /\
  coordinates s = [(lit 8, lit 0); (lit (-8), lit 180)] /\
  validCoordinate (N := Doubles.DoubleNum m) (lit 8) (lit 0) = true /\
  validCoordinate (N := Doubles.DoubleNum m) (lit (-8)) (lit 180) = true /\
  distance s = PrimFloat.nan /\
  PrimFloat.leb (@lit (Doubles.DoubleNum m) 0) (distance s) = false /\
  distanceText s = @ToFixed2 (Doubles.DoubleNum m) PrimFloat.nan.
Proof.
  intros m Hm s.
  destruct (two_positions (N := Doubles.DoubleNum m)
              (lit 8) (lit 0) (lit (-8)) (lit 180))
    as (Hst & Hcs & Hd & Htext).
  fold s in Hst, Hcs, Hd, Htext.
  destruct (DoubleFacts.antipodes_are_valid m) as [Hv1 Hv2].
  assert (distance s = PrimFloat.nan) as Hnan.
  { rewrite Hd.
    change (PrimFloat.add (Doubles.double_of_Z 0)
              (calculateDistance (N := Doubles.DoubleNum m)
                 (Doubles.double_of_Z 8) (Doubles.double_of_Z 0)
                 (Doubles.double_of_Z (-8)) (Doubles.double_of_Z 180))
            = PrimFloat.nan).
    rewrite (DoubleFacts.antipodal_leg_is_nan m Hm). reflexivity. }
  split; [exact Hst |]. split; [exact Hcs |].
  split; [exact Hv1 |]. split; [exact Hv2 |].
  split; [exact Hnan |]. rewrite Htext, Hnan.
  split; reflexivity.
Qed.

Lemma totalDistance_is_NaN_after_antipodal_leg_witness :
  let m := Doubles.legLibrary in
  let s :=
    run [ClickStart (env_at 1000);
         PositionUpdate (N := Doubles.DoubleNum m) (lit 8) (lit 0);
         PositionUpdate (lit (-8)) (lit 180)] (initialize blankPage) in
  Doubles.nearest_on_antipodal_leg m /\
  distance s = PrimFloat.nan /\
  PrimFloat.leb (@lit (Doubles.DoubleNum m) 0) (distance s) = false.
Proof.
  intros m s.
  split; [exact DoubleFacts.legLibrary_nearest |].
  destruct (totalDistance_is_NaN_after_antipodal_leg m
              DoubleFacts.legLibrary_nearest)
    as (_ & _ & _ & _ & Hnan & Hleb & _).
  split; [exact Hnan | exact Hleb].
Defined.

(** C8.  [calculateDistance] has no clamp on [a].  Under a [Math] library
    that rounds to nearest on that leg, the distance between the valid
    coordinates (8, 0) and (-8, 180) is NaN, not a number at least 0, where
    the haversine distance is half the circumference of the Earth. *)
Theorem calculateDistance_is_NaN_between_antipodes :
  forall m : Doubles.MathLibrary,
  Doubles.nearest_on_antipodal_leg m ->
  let d :=
    calculateDistance (N := Doubles.DoubleNum m)
      (lit 8) (lit 0) (lit (-8)) (lit 180) in
  validCoordinate (N := Doubles.DoubleNum m) (lit 8) (lit 0) = true /\
  validCoordinate (N := Doubles.DoubleNum m) (lit (-8)) (lit 180) = true /\
  d = PrimFloat.nan /\
  PrimFloat.leb (@lit (Doubles.DoubleNum m) 0) d = false.
Proof.
  intros m Hm d.
  destruct (DoubleFacts.antipodes_are_valid m) as [Hv1 Hv2].
  assert (d = PrimFloat.nan) as Hnan
    by exact (DoubleFacts.antipodal_leg_is_nan m Hm).
  split; [exact Hv1 |]. split; [exact Hv2 |]. split; [exact Hnan |].
  rewrite Hnan. reflexivity.
Qed.

Lemma calculateDistance_is_NaN_between_antipodes_witness :
  let m := Doubles.legLibrary in
  let d :=
    calculateDistance (N := Doubles.DoubleNum m)
      (lit 8) (lit 0) (lit (-8)) (lit 180) in
  Doubles.nearest_on_antipodal_leg m /\
  d = PrimFloat.nan /\
  PrimFloat.leb (@lit (Doubles.DoubleNum m) 0) d = false.
Proof.
  intros m d.
  split; [exact DoubleFacts.legLibrary_nearest |].
  destruct (calculateDistance_is_NaN_between_antipodes m
              DoubleFacts.legLibrary_nearest)
    as (_ & _ & Hnan & Hleb).
  split; [exact Hnan | exact Hleb].
Defined.

(** ** Start clicks outside the idle state *)

Section StartClicks.
Context {N : NumOps}.

(** A session that is not idle has a start time: the two idle pages are
    not paused. *)
Lemma not_idle_is_started (page : Page) (s : State) :
  reachable page s ->
  sessionState s <> Idle ->
  exists t : Z, startTime s = Some t.
Proof.
  intros Hs Hst.
  destruct (reachable_coherent page s Hs) as [_ Hc].
  destruct (startTime s) as [t |] eqn:Ht; [exists t; reflexivity |].
  exfalso. apply Hst. unfold sessionState. rewrite Ht.
  destruct Hc as [-> | ->]; reflexivity.
Qed.

Lemma trackingSession_start_click (e : Env) :
  startBtnDisabled trackingSession = true /\
  dispatch (ClickStart e) trackingSession = (trackingSession, []).
Proof.
  assert (startBtnDisabled trackingSession = true) as Hb by reflexivity.
  split; [exact Hb |]. cbn [dispatch]. rewrite Hb. reflexivity.
Qed.

End StartClicks.

(** C4 as stated fails: a start issued while the session is tracking
    signals nothing.  The Start button has been disabled since the start,
    so the click runs no handler: no alert, and the state as it was. *)
Lemma start_click_while_tracking_is_silent :
  let s := trackingSession (N := RealNum) in
  sessionState s = Tracking /\
  startBtnDisabled s = true /\
  dispatch (ClickStart (env_at 5000)) s = (s, []).
Proof.
  destruct (trackingSession_fields (N := RealNum)) as (Hst & _).
  split; [exact Hst |].
  exact (trackingSession_start_click (N := RealNum) (env_at 5000)).
Qed.

(** C4, amended.  In every state the page can reach in which the session
    is not idle (tracking or paused), the Start button is disabled, so a
    start click runs no handler: it leaves every variable, the start time,
    the accumulated pause, the coordinates and the distance included, as
    it was, and it signals nothing. *)
Theorem start_click_outside_idle_is_ignored :
  forall (N : NumOps) (page : Page) (s : State) (e : Env),
  reachable page s ->
  sessionState s <> Idle ->
  startBtnDisabled s = true /\ dispatch (ClickStart e) s = (s, []).
Proof.
  intros N page s e Hs Hst.
  destruct (not_idle_is_started page s Hs Hst) as [t Ht].
  destruct (reachable_coherent page s Hs) as [_ Hc]. rewrite Ht in Hc.
  destruct Hc as (_ & Hb1 & _).
  split; [exact Hb1 |]. cbn [dispatch]. rewrite Hb1. reflexivity.
Qed.

Lemma start_click_outside_idle_is_ignored_witness :
  let s := pausedSession (N := RealNum) in
  reachable blankPage s /\
  sessionState s <> Idle /\
  startBtnDisabled s = true /\
  dispatch (ClickStart (env_at 12000)) s = (s, []).
Proof.
  intros s.
  assert (sessionState s <> Idle) as Hst
    by (destruct (pausedSession_fields (N := RealNum)) as [Hp _];
        unfold s; rewrite Hp; discriminate).
  split; [apply pausedSession_reachable |]. split; [exact Hst |].
  exact (start_click_outside_idle_is_ignored RealNum blankPage s
           (env_at 12000) pausedSession_reachable Hst).
Defined.
